(** * The Enflame [efsmi] detector of gpustack: parser and record assembly

    A shallow embedding of [gpustack/detectors/efsmi/efsmi.py].

    Text is [string] over the code points 0..255; the character classes
    of [re], [str.split], [str.strip], [str.splitlines], [str.lower] and
    [repr] are the ones CPython uses on that range.  Exceptions are values
    of [exn] threaded through the [result] monad.  Python dictionaries are
    insertion-ordered association lists with unique keys. *)

From Stdlib Require Import String Ascii List ZArith NArith QArith Bool Lia.
From Stdlib Require Import DecimalString.
Import ListNotations.

Local Open Scope string_scope.
Local Open Scope list_scope.
Local Open Scope Z_scope.

(** ** Characters *)

Module Char.

Definition code (c : ascii) : N := N_of_ascii c.

Definition between (lo hi : N) (c : ascii) : bool :=
  ((lo <=? code c) && (code c <=? hi))%N.

(** [str.isspace], which is also [\s] of [re] and the separator set of
    [str.split()] and [str.strip()]. *)
Definition is_space (c : ascii) : bool :=
  between 9 13 c || between 28 32 c || (code c =? 133)%N || (code c =? 160)%N.

(** [\d] of [re]: the decimal digits. *)
Definition is_digit (c : ascii) : bool := between 48 57 c.

(** [\w] of [re]: alphanumeric code points and the underscore. *)
Definition is_word (c : ascii) : bool :=
  between 48 57 c || between 65 90 c || between 97 122 c || (code c =? 95)%N
  || (code c =? 170)%N || between 178 179 c || (code c =? 181)%N
  || between 185 186 c || between 188 190 c
  || between 192 214 c || between 216 246 c || between 248 255 c.

(** The line boundaries of [str.splitlines]. *)
Definition is_linebreak (c : ascii) : bool :=
  between 10 13 c || between 28 30 c || (code c =? 133)%N.

(** [str.lower] on one code point. *)
Definition lower (c : ascii) : ascii :=
  if between 65 90 c || between 192 214 c || between 216 222 c
  then ascii_of_N (code c + 32)
  else c.

(** [str.isprintable] on one code point, as [repr] uses it. *)
Definition is_printable (c : ascii) : bool :=
  between 32 126 c || (between 161 255 c && negb (code c =? 173)%N).

Definition digit_value (c : ascii) : Z := Z.of_N (code c) - 48.

Definition hex_digit (n : N) : ascii :=
  if (n <? 10)%N then ascii_of_N (48 + n) else ascii_of_N (87 + n).

End Char.

(** ** Strings: the [str] methods the detector calls *)

Module Str.

Fixpoint map (f : ascii -> ascii) (s : string) : string :=
  match s with
  | EmptyString => EmptyString
  | String c s' => String (f c) (map f s')
  end.

Fixpoint forallb (p : ascii -> bool) (s : string) : bool :=
  match s with
  | EmptyString => true
  | String c s' => p c && forallb p s'
  end.

Definition is_empty (s : string) : bool :=
  match s with EmptyString => true | _ => false end.

(** [s.lower()] *)
Definition lower (s : string) : string := map Char.lower s.

(** [sub in s] *)
Fixpoint contains (sub s : string) : bool :=
  if String.prefix sub s then true
  else match s with
       | EmptyString => false
       | String _ s' => contains sub s'
       end.

(** [s.endswith(suffix)] *)
Fixpoint endswith (suffix s : string) : bool :=
  if String.eqb s suffix then true
  else match s with
       | EmptyString => false
       | String _ s' => endswith suffix s'
       end.

(** [s.replace(" ", "_")] *)
Definition replace_space_underscore (s : string) : string :=
  map (fun c => if Ascii.eqb c " " then "_"%char else c) s.

Fixpoint lstrip (s : string) : string :=
  match s with
  | EmptyString => EmptyString
  | String c s' => if Char.is_space c then lstrip s' else s
  end.

Fixpoint rstrip (s : string) : string :=
  match s with
  | EmptyString => EmptyString
  | String c s' =>
      let r := rstrip s' in
      if Char.is_space c && is_empty r then EmptyString else String c r
  end.

(** [s.strip()] *)
Definition strip (s : string) : string := rstrip (lstrip s).

(** [s.split()]: the maximal runs of non-whitespace, [cur] being the run
    under construction. *)
Fixpoint split_aux (cur s : string) : list string :=
  match s with
  | EmptyString => if is_empty cur then [] else [cur]
  | String c s' =>
      if Char.is_space c
      then (if is_empty cur then split_aux "" s' else cur :: split_aux "" s')
      else split_aux (cur ++ String c "") s'
  end.

Definition split (s : string) : list string := split_aux "" s.

(** [s.splitlines()]: a carriage return followed by a line feed is one
    boundary; a final boundary opens no further line. *)
Fixpoint splitlines (s : string) : list string :=
  match s with
  | EmptyString => []
  | String c s' =>
      if Char.is_linebreak c then
        match c, s' with
        | "013"%char, String "010"%char s'' => "" :: splitlines s''
        | _, _ => "" :: splitlines s'
        end
      else
        match splitlines s' with
        | [] => [String c ""]
        | l :: ls => String c l :: ls
        end
  end.

(** [", ".join(parts)] and friends. *)
Fixpoint join (sep : string) (parts : list string) : string :=
  match parts with
  | [] => ""
  | [p] => p
  | p :: ps => p ++ sep ++ join sep ps
  end.

(** [str(n)] for an integer. *)
Definition of_Z (n : Z) : string := NilZero.string_of_int (Z.to_int n).

Definition hex2 (c : ascii) : string :=
  String (Char.hex_digit (Char.code c / 16)%N)
    (String (Char.hex_digit (Char.code c mod 16)%N) "").

(** [repr(s)] for a string: single quotes unless the text has a single
    quote and no double quote; backslash escapes for the quote, the
    backslash, tab, line feed, carriage return and the unprintables. *)
Definition repr_char (quote c : ascii) : string :=
  if Ascii.eqb c quote || Ascii.eqb c "092"%char then String "092"%char (String c "")
  else if Ascii.eqb c "009"%char then String "092"%char "t"
  else if Ascii.eqb c "010"%char then String "092"%char "n"
  else if Ascii.eqb c "013"%char then String "092"%char "r"
  else if Char.is_printable c then String c ""
  else String "092"%char ("x" ++ hex2 c).

Fixpoint repr_body (quote : ascii) (s : string) : string :=
  match s with
  | EmptyString => ""
  | String c s' => repr_char quote c ++ repr_body quote s'
  end.

Definition repr (s : string) : string :=
  let quote :=
    if contains "'" s && negb (contains (String "034"%char "") s)
    then "034"%char else "'"%char in
  String quote (repr_body quote s ++ String quote "").

(** [str(l)] for a list of strings, what an f-string prints for it. *)
Definition of_list (l : list string) : string :=
  "[" ++ join ", " (List.map repr l) ++ "]".

(** [str(x)] for an optional string ([None] prints as such). *)
Definition of_option (o : option string) : string :=
  match o with Some s => s | None => "None" end.

End Str.

(** ** Values, exceptions and results *)

(** A [float].  [FNum q] stands for the binary64 number nearest to the
    rational [q], the exact value of the decimal text it was converted
    from; the rounding itself, and with it the overflow of a huge value
    to infinity, is outside the model. *)
Inductive pyfloat : Type :=
| FNum (q : Q)
| FInf (negative : bool)
| FNan.

(** The dynamically typed values the parser stores in its dictionaries. *)
Inductive value : Type :=
| VInt (n : Z)
| VFloat (x : pyfloat)
| VStr (s : string).

Inductive exn : Type :=
| KeyError (key : value)
| IndexError
| ValueError (literal : string)
| AttributeError (attribute : string)
| Exception (message : string).

Inductive result (A : Type) : Type :=
| Ok (a : A)
| Raise (e : exn).

Arguments Ok {A} a.
Arguments Raise {A} e.

Definition bind {A B : Type} (m : result A) (k : A -> result B) : result B :=
  match m with
  | Ok a => k a
  | Raise e => Raise e
  end.

Declare Scope result_scope.
Delimit Scope result_scope with result.
Notation "x <- m ;; k" := (bind m (fun x => k))
  (at level 61, m at next level, right associativity) : result_scope.
Local Open Scope result_scope.

(** ** Conversions [int(...)] and [float(...)] *)

Module Conv.

(** CPython's default bound on the number of digits [int] converts from a
    string ([sys.int_info.default_max_str_digits]). *)
Definition int_max_str_digits : nat := 4300.

(** Digits with single underscores between them; yields the value and the
    number of digits. *)
Fixpoint int_digits (acc : Z) (count : nat) (after_digit : bool) (s : string)
  : option (Z * nat) :=
  match s with
  | EmptyString => if after_digit then Some (acc, count) else None
  | String c s' =>
      if Char.is_digit c
      then int_digits (10 * acc + Char.digit_value c) (S count) true s'
      else if Ascii.eqb c "_" && after_digit
           then int_digits acc count false s'
           else None
  end.

Definition split_sign (s : string) : bool * string :=
  match s with
  | String "-" s' => (true, s')
  | String "+" s' => (false, s')
  | _ => (false, s)
  end.

(** [int(s)] in base ten. *)
Definition py_int (s : string) : result Z :=
  let '(negative, body) := split_sign (Str.strip s) in
  match int_digits 0 0 false body with
  | Some (n, count) =>
      if (int_max_str_digits <? count)%nat then Raise (ValueError s)
      else Ok (if negative then - n else n)
  | None => Raise (ValueError s)
  end.

(** Underscores of a float literal: each one between two digits. *)
Fixpoint underscores_ok (prev : option ascii) (s : string) : bool :=
  let digit o := match o with Some c => Char.is_digit c | None => false end in
  match s with
  | EmptyString => negb (match prev with Some c => Ascii.eqb c "_" | None => false end)
  | String c s' =>
      (if Ascii.eqb c "_" then digit prev
       else match prev with
            | Some p => negb (Ascii.eqb p "_") || Char.is_digit c
            | None => true
            end)
      && underscores_ok (Some c) s'
  end.

Fixpoint drop_underscores (s : string) : string :=
  match s with
  | EmptyString => EmptyString
  | String c s' =>
      if Ascii.eqb c "_" then drop_underscores s' else String c (drop_underscores s')
  end.

(** The leading run of digits: its value, its length, and the rest. *)
Fixpoint take_digits (acc : Z) (count : nat) (s : string) : Z * nat * string :=
  match s with
  | String c s' =>
      if Char.is_digit c
      then take_digits (10 * acc + Char.digit_value c) (S count) s'
      else (acc, count, s)
  | EmptyString => (acc, count, s)
  end.

(** The exponent part: [e] or [E], an optional sign, at least one digit,
    then the end of the text. *)
Definition exponent (s : string) : option Z :=
  match s with
  | EmptyString => Some 0
  | String c s' =>
      if Ascii.eqb c "e" || Ascii.eqb c "E" then
        let '(negative, body) := split_sign s' in
        match take_digits 0 0 body with
        | (_, O, _) => None
        | (e, _, EmptyString) => Some (if negative then - e else e)
        | _ => None
        end
      else None
  end.

Definition scale (m e : Z) : Q :=
  if 0 <=? e then Qmake (m * 10 ^ e) 1
  else Qred (Qmake m (Z.to_pos (10 ^ (- e)))).

(** [float(s)] *)
Definition py_float (s : string) : result pyfloat :=
  let t := Str.strip s in
  if negb (underscores_ok None t) then Raise (ValueError s) else
  let '(negative, body) := split_sign (drop_underscores t) in
  let word := Str.lower body in
  if String.eqb word "inf" || String.eqb word "infinity" then Ok (FInf negative)
  else if String.eqb word "nan" then Ok FNan
  else
    let '(i, ni, rest) := take_digits 0 0 body in
    let '(m, nf, rest') :=
      match rest with
      | String "." r => take_digits i 0 r
      | _ => (i, O, rest)
      end in
    match (ni + nf)%nat, exponent rest' with
    | S _, Some e =>
        Ok (FNum (scale (if negative then - m else m) (e - Z.of_nat nf)))
    | _, _ => Raise (ValueError s)
    end.

End Conv.

(** ** Regular expressions: a backtracking matcher for the patterns used *)

Module Re.

Inductive regex : Type :=
| Eps
| Chr (p : ascii -> bool)
| Seq (r1 r2 : regex)
| Star (r : regex)
| Group (i : nat) (r : regex)
| Bol
| Eol.

(** The text of the capture groups closed so far, latest first. *)
Definition captures := list (nat * string).

(** A continuation receives the position reached, the text left and the
    captures. *)
Definition cont (A : Type) := nat -> string -> captures -> option A.

Section Matcher.
Context {A : Type}.

(** Greedy iteration of [step]: one more round first, the continuation
    when that fails.  A round that consumes nothing is refused, so
    [fuel], the length of the text left, is never exhausted. *)
Fixpoint star_loop (step : nat -> string -> captures -> cont A -> option A)
    (fuel : nat) (pos : nat) (s : string) (caps : captures) (k : cont A)
  : option A :=
  match fuel with
  | O => k pos s caps
  | S fuel' =>
      match step pos s caps
              (fun pos' s' caps' =>
                 if (String.length s' <? String.length s)%nat
                 then star_loop step fuel' pos' s' caps' k
                 else None) with
      | Some a => Some a
      | None => k pos s caps
      end
  end.

Fixpoint accept (r : regex) (pos : nat) (s : string) (caps : captures)
    (k : cont A) : option A :=
  match r with
  | Eps => k pos s caps
  | Chr p =>
      match s with
      | String c s' => if p c then k (S pos) s' caps else None
      | EmptyString => None
      end
  | Seq r1 r2 =>
      accept r1 pos s caps (fun pos' s' caps' => accept r2 pos' s' caps' k)
  | Star r1 => star_loop (accept r1) (String.length s) pos s caps k
  | Group i r1 =>
      accept r1 pos s caps
        (fun pos' s' caps' =>
           k pos' s' ((i, String.substring 0 (pos' - pos) s) :: caps'))
  | Bol => if (pos =? 0)%nat then k pos s caps else None
  | Eol =>
      match s with
      | EmptyString => k pos s caps
      | String "010"%char EmptyString => k pos s caps
      | _ => None
      end
  end.
End Matcher.

(** [pattern.match(s)]: a match anchored at the start of [s]. *)
Definition re_match (r : regex) (s : string) : option captures :=
  accept r 0%nat s [] (fun _ _ caps => Some caps).

(** [m.group(i)] *)
Fixpoint group (i : nat) (caps : captures) : string :=
  match caps with
  | [] => ""
  | (j, t) :: caps' => if (i =? j)%nat then t else group i caps'
  end.

Definition Plus (r : regex) : regex := Seq r (Star r).

Fixpoint Lit (s : string) : regex :=
  match s with
  | EmptyString => Eps
  | String c s' => Seq (Chr (Ascii.eqb c)) (Lit s')
  end.

Definition space : regex := Chr Char.is_space.
Definition word : regex := Chr Char.is_word.
Definition digit : regex := Chr Char.is_digit.
Definition dot : regex := Chr (fun c => negb (Ascii.eqb c "010"%char)).
Definition colon : regex := Chr (Ascii.eqb ":").

End Re.

(** ** Dictionaries *)

(** A [dict]: an association list in insertion order whose keys are
    pairwise different for [eqb].  Assigning to a present key replaces the
    value in place and keeps the key. *)
Module Dict.
Section Dict.
Context {K V : Type} (eqb : K -> K -> bool).

Definition t := list (K * V).

Fixpoint get (d : list (K * V)) (k : K) : option V :=
  match d with
  | [] => None
  | (k', v) :: d' => if eqb k' k then Some v else get d' k
  end.

Fixpoint set (d : list (K * V)) (k : K) (v : V) : list (K * V) :=
  match d with
  | [] => [(k, v)]
  | (k', v') :: d' =>
      if eqb k' k then (k', v) :: d' else (k', v') :: set d' k v
  end.

Definition keys (d : list (K * V)) : list K := List.map fst d.

Definition mem (d : list (K * V)) (k : K) : bool :=
  match get d k with Some _ => true | None => false end.

(** Truth value of a dictionary: non-empty. *)
Definition truthy (d : list (K * V)) : bool :=
  match d with [] => false | _ => true end.
End Dict.
End Dict.

Definition pyfloat_eqb (x y : pyfloat) : bool :=
  match x, y with
  | FNum p, FNum q => Qeq_bool p q
  | FInf a, FInf b => Bool.eqb a b
  | _, _ => false
  end.

(** [==] on values, as dictionary keys are compared.  Only integers and
    strings ever become keys of the device map. *)
Definition value_eqb (a b : value) : bool :=
  match a, b with
  | VInt m, VInt n => Z.eqb m n
  | VStr s, VStr t => String.eqb s t
  | VFloat x, VFloat y => pyfloat_eqb x y
  | VInt m, VFloat x | VFloat x, VInt m => pyfloat_eqb (FNum (inject_Z m)) x
  | _, _ => false
  end.

(** One device's fields, keyed by field name. *)
Definition fields := list (string * value).

(** The per-category map, keyed by device id. *)
Definition device_map := list (value * fields).

Definition getitem (d : fields) (k : string) : result value :=
  match Dict.get String.eqb d k with
  | Some v => Ok v
  | None => Raise (KeyError (VStr k))
  end.

Definition getdevice (d : device_map) (k : value) : result fields :=
  match Dict.get value_eqb d k with
  | Some v => Ok v
  | None => Raise (KeyError k)
  end.

(** [l[0]] *)
Definition first {A : Type} (l : list A) : result A :=
  match l with
  | x :: _ => Ok x
  | [] => Raise IndexError
  end.

(** ** The external process *)

(** What [subprocess.run(..., capture_output=True, text=True)] hands
    back: a completed process, or an exception with its text.  The tool
    is a function of the command line; the detector calls it once for
    each of its four command lines. *)
Record CompletedProcess : Type := {
  returncode : Z;
  stdout : option string;
  stderr : option string
}.

Inductive run_outcome : Type :=
| Completed (p : CompletedProcess)
| Failed (message : string).

Definition subprocess_run := list string -> run_outcome.

(** ** The detector *)

Module EFSMI.

Local Open Scope string_scope.

(** [is_available], over the lookup of a command on the search path. *)
Definition is_available (is_command_available : string -> bool) : bool :=
  is_command_available "efsmi".

(** The handler of [_run_command]: every exception of the body is raised
    again with the command and, when the process ran, its two streams. *)
Definition reraise {A : Type} (command : list string)
    (res : option CompletedProcess) (e : string) : result A :=
  let error_message : string :=
    "Failed to execute " ++ Str.of_list command ++ ": " ++ e in
  let error_message : string :=
    match res with
    | Some r =>
        error_message ++ ", stdout: " ++ Str.of_option (stdout r)
          ++ ", stderr: " ++ Str.of_option (stderr r)
    | None => error_message
    end in
  Raise (Exception error_message).

Definition _run_command (run : subprocess_run) (command : list string)
  : result (option string) :=
  match run command with
  | Failed e => reraise command None e
  | Completed res =>
      match stdout res with
      | None => Ok None
      | Some output =>
          if Str.contains "no devices" (Str.lower output) then Ok None
          else if negb (Z.eqb (returncode res) 0) then
            reraise command (Some res)
              ("Unexpected return code: " ++ Str.of_Z (returncode res))%string
          else if String.eqb output "" then
            reraise command (Some res)
              ("Output is empty, return code: " ++ Str.of_Z (returncode res))%string
          else Ok (Some output)
      end
  end.

(** The pattern of a device boundary: [DEV ID (\d+)] *)
Definition dev_id_pattern : Re.regex :=
  Re.Seq (Re.Lit "DEV ID ") (Re.Group 1 (Re.Plus Re.digit)).

(** The pattern of a property line, spelled with blanks between its
    parts: [^ \s* ( \w+ (?: \s \w+ )* ) \s* : \s* ( .* ) $] *)
Definition property_pattern : Re.regex :=
  Re.Seq Re.Bol
  (Re.Seq (Re.Star Re.space)
  (Re.Seq (Re.Group 1
             (Re.Seq (Re.Plus Re.word)
                     (Re.Star (Re.Seq Re.space (Re.Plus Re.word)))))
  (Re.Seq (Re.Star Re.space)
  (Re.Seq Re.colon
  (Re.Seq (Re.Star Re.space)
  (Re.Seq (Re.Group 2 (Re.Star Re.dot))
          Re.Eol)))))).

(** [value.split()[0]] on a value that is still text. *)
Definition first_token (v : value) : result string :=
  match v with
  | VStr s => first (Str.split s)
  | _ => Raise (AttributeError "split")
  end.

(** The three conversions by key name, in the order of the source. *)
Definition coerce (key : string) (text : string) : result value :=
  let value := VStr text in
  value <- (if Str.endswith "_Size" key
            then tok <- first_token value ;;
                 n <- Conv.py_int tok ;;
                 Ok (VInt (n * 1024 * 1024))
            else Ok value) ;;
  value <- (if String.eqb key "GCU_Temp"
            then tok <- first_token value ;;
                 x <- Conv.py_float tok ;;
                 Ok (VFloat x)
            else Ok value) ;;
  value <- (if String.eqb key "GCU_Usage"
            then tok <- first_token value ;;
                 x <- Conv.py_float tok ;;
                 Ok (VFloat x)
            else Ok value) ;;
  Ok value.

(** The state of the loop: the output map and the open accumulator. *)
Definition state : Type := device_map * fields.

(** [if current_device: devices[current_device["DEV_ID"]] = current_device] *)
Definition flush (devices : device_map) (current_device : fields)
  : result device_map :=
  if Dict.truthy current_device
  then k <- getitem current_device "DEV_ID" ;;
       Ok (Dict.set value_eqb devices k current_device)
  else Ok devices.

(** One round of the loop over the lines. *)
Definition loop_body (st : state) (line : string) : result state :=
  let '(devices, current_device) := st in
  match Re.re_match dev_id_pattern line with
  | Some dev_id_match =>
      devices <- flush devices current_device ;;
      n <- Conv.py_int (Re.group 1 dev_id_match) ;;
      Ok (devices, [("DEV_ID", VInt n)])
  | None =>
      match Re.re_match property_pattern line with
      | Some prop_match =>
          if Dict.truthy current_device then
            let key := Str.replace_space_underscore (Re.group 1 prop_match) in
            let value := Str.strip (Re.group 2 prop_match) in
            value <- coerce key value ;;
            Ok (devices, Dict.set String.eqb current_device key value)
          else Ok st
      | None => Ok st
      end
  end.

Fixpoint loop (st : state) (lines : list string) : result state :=
  match lines with
  | [] => Ok st
  | line :: rest => st' <- loop_body st line ;; loop st' rest
  end.

(** The body of [_get_gpu_info] below the call of the runner. *)
Definition parse_lines (lines : list string) : result device_map :=
  st <- loop ([], []) lines ;;
  flush (fst st) (snd st).

Definition parse_output (output : string) : result device_map :=
  parse_lines (Str.splitlines output).

Definition _get_gpu_info (run : subprocess_run) (command : list string)
  : result device_map :=
  output <- _run_command run command ;;
  match output with
  | None => Raise (Exception "Failed to get GPU base info")
  | Some output => parse_output output
  end.

(** Modelled from the spec: the enumerations [VendorEnum] (of
    [gpustack.schemas.workers]) and [DeviceTypeEnum] (of
    [gpustack.utils.platform]), which the detector imports and which are
    not among the sources at hand; the spec has the vendor and the device
    type as fixed constants. *)
Inductive VendorEnum : Type := Enflame.
Inductive DeviceTypeEnum : Type := GPU.

(** Modelled from the spec: the record type [GPUCoreInfo] of
    [gpustack.schemas.workers], not among the sources at hand; it keeps
    the utilization rate its constructor is given. *)
Module GPUCoreInfo.
Record t : Type := { utilization_rate : value }.
End GPUCoreInfo.

(** Modelled from the spec: the record type [MemoryInfo] of
    [gpustack.schemas.workers], not among the sources at hand; it keeps
    the fields its constructor is given. *)
Module MemoryInfo.
Record t : Type := {
  is_unified_memory : bool;
  total : value;
  used : value;
  utilization_rate : value
}.
End MemoryInfo.

(** Modelled from the spec: the record type [GPUDeviceInfo] of
    [gpustack.schemas.workers], the DeviceRecord of the spec, not among
    the sources at hand; it keeps the fields its constructor is given. *)
Module GPUDeviceInfo.
Record t : Type := {
  index : value;
  device_index : value;
  device_chip_index : value;
  name : value;
  uuid : value;
  vendor : VendorEnum;
  type : DeviceTypeEnum;
  core : GPUCoreInfo.t;
  memory : MemoryInfo.t;
  temperature : value
}.
End GPUDeviceInfo.

(** The constructor call of the loop of [_gather_gpu_info]; its arguments
    are evaluated from left to right. *)
Definition make_device (memory_info temperature_info usage_info : device_map)
    (key : value) (item : fields) : result GPUDeviceInfo.t :=
  index <- getitem item "DEV_ID" ;;
  device_index <- getitem item "DEV_ID" ;;
  device_chip_index <- getitem item "DEV_ID" ;;
  name <- getitem item "Dev_Name" ;;
  uuid <- getitem item "Dev_UUID" ;;
  usage <- getdevice usage_info key ;;
  core_rate <- getitem usage "GCU_Usage" ;;
  mem <- getdevice memory_info key ;;
  total <- getitem mem "Total_Size" ;;
  mem <- getdevice memory_info key ;;
  used <- getitem mem "Used_Size" ;;
  usage <- getdevice usage_info key ;;
  memory_rate <- getitem usage "GCU_Usage" ;;
  temp <- getdevice temperature_info key ;;
  temperature <- getitem temp "GCU_Temp" ;;
  Ok {| GPUDeviceInfo.index := index;
        GPUDeviceInfo.device_index := device_index;
        GPUDeviceInfo.device_chip_index := device_chip_index;
        GPUDeviceInfo.name := name;
        GPUDeviceInfo.uuid := uuid;
        GPUDeviceInfo.vendor := Enflame;
        GPUDeviceInfo.type := GPU;
        GPUDeviceInfo.core := {| GPUCoreInfo.utilization_rate := core_rate |};
        GPUDeviceInfo.memory :=
          {| MemoryInfo.is_unified_memory := false;
             MemoryInfo.total := total;
             MemoryInfo.used := used;
             MemoryInfo.utilization_rate := memory_rate |};
        GPUDeviceInfo.temperature := temperature |}.

(** [for key, item in device_info.items(): ... devices.append(device)] *)
Fixpoint assemble (memory_info temperature_info usage_info : device_map)
    (items : device_map) (devices : list GPUDeviceInfo.t)
  : result (list GPUDeviceInfo.t) :=
  match items with
  | [] => Ok devices
  | (key, item) :: items' =>
      device <- make_device memory_info temperature_info usage_info key item ;;
      assemble memory_info temperature_info usage_info items'
        (devices ++ [device])%list
  end.

Definition _gather_gpu_info (run : subprocess_run)
  : result (list GPUDeviceInfo.t) :=
  device_info <- _get_gpu_info run ["efsmi"; "-q"; "-d"; "DEVICE"] ;;
  memory_info <- _get_gpu_info run ["efsmi"; "-q"; "-d"; "MEMORY"] ;;
  temperature_info <- _get_gpu_info run ["efsmi"; "-q"; "-d"; "TEMP"] ;;
  usage_info <- _get_gpu_info run ["efsmi"; "-q"; "-d"; "USAGE"] ;;
  assemble memory_info temperature_info usage_info device_info [].

Definition gather_gpu_info := _gather_gpu_info.

End EFSMI.

(** ** The grammar of a category text, read off the two patterns *)

Module Grammar.

Local Open Scope string_scope.

(** The digits of a device-boundary line, when the line is one. *)
Definition boundary_id (line : string) : option string :=
  option_map (Re.group 1) (Re.re_match EFSMI.dev_id_pattern line).

Definition is_boundary (line : string) : bool :=
  match boundary_id line with Some _ => true | None => false end.

(** The normalized key and the trimmed value of a property line. *)
Definition property_of (line : string) : option (string * string) :=
  match Re.re_match EFSMI.property_pattern line with
  | Some m => Some (Str.replace_space_underscore (Re.group 1 m),
                    Str.strip (Re.group 2 m))
  | None => None
  end.

(** The keys whose values are converted to numbers. *)
Definition is_size_key (key : string) : bool := Str.endswith "_Size" key.
Definition is_float_key (key : string) : bool :=
  String.eqb key "GCU_Temp" || String.eqb key "GCU_Usage".

(** The lines up to the next boundary line. *)
Fixpoint until_boundary (lines : list string) : list string :=
  match lines with
  | [] => []
  | l :: rest => if is_boundary l then [] else l :: until_boundary rest
  end.

(** The device blocks of a text: the digits of each boundary line with
    the lines that follow it up to the next boundary. *)
Fixpoint segments (lines : list string) : list (string * list string) :=
  match lines with
  | [] => []
  | l :: rest =>
      match boundary_id l with
      | Some digits => (digits, until_boundary rest) :: segments rest
      | None => segments rest
      end
  end.

(** What one line of a block adds to the fields of its device. *)
Definition add_property (cur : fields) (line : string) : result fields :=
  match property_of line with
  | Some (key, text) =>
      v <- EFSMI.coerce key text ;;
      Ok (Dict.set String.eqb cur key v)
  | None => Ok cur
  end.

Fixpoint add_properties (cur : fields) (lines : list string) : result fields :=
  match lines with
  | [] => Ok cur
  | l :: rest => cur' <- add_property cur l ;; add_properties cur' rest
  end.

(** A block read on its own: its declared id and its fields. *)
Definition block (seg : string * list string) : result (Z * fields) :=
  n <- Conv.py_int (fst seg) ;;
  f <- add_properties [("DEV_ID", VInt n)] (snd seg) ;;
  Ok (n, f).

Fixpoint blocks_of (segs : list (string * list string))
  : result (list (Z * fields)) :=
  match segs with
  | [] => Ok []
  | seg :: rest => b <- block seg ;; bs <- blocks_of rest ;; Ok (b :: bs)
  end.

(** The blocks of a text, in the order of the text; an error when an id
    or a numeric field of some block does not convert. *)
Definition blocks (lines : list string) : result (list (Z * fields)) :=
  blocks_of (segments lines).

(** No property line uses the key the parser keeps the id under. *)
Definition reserved_key_unused (lines : list string) : bool :=
  List.forallb
    (fun l => match property_of l with
              | Some (key, _) => negb (String.eqb key "DEV_ID")
              | None => true
              end) lines.

(** The fields of the last block that declares [id]. *)
Definition last_block (id : Z) (bs : list (Z * fields)) : option fields :=
  List.fold_left
    (fun acc b => if Z.eqb (fst b) id then Some (snd b) else acc) bs None.

(** The accumulator is closed, or holds an id under the reserved key. *)
Definition has_id (cur : fields) : Prop :=
  cur = [] \/ exists k, Dict.get String.eqb cur "DEV_ID" = Some k.

(** The value of a run of decimal digits. *)
Fixpoint decimal_from (acc : Z) (digits : string) : Z :=
  match digits with
  | EmptyString => acc
  | String c s => decimal_from (10 * acc + Char.digit_value c) s
  end.

Definition decimal (digits : string) : Z := decimal_from 0 digits.

Definition starts_with_digit (s : string) : bool :=
  match s with
  | String c _ => Char.is_digit c
  | EmptyString => false
  end.

(** Lines put back into one text, a line feed after each. *)
Fixpoint unlines (lines : list string) : string :=
  match lines with
  | [] => ""
  | l :: rest => l ++ String "010"%char (unlines rest)
  end.

(** The value of a numeric field has no leading token that converts. *)
Definition no_int_token (text : string) : bool :=
  match Str.split text with
  | [] => true
  | tok :: _ => match Conv.py_int tok with Ok _ => false | Raise _ => true end
  end.

Definition no_float_token (text : string) : bool :=
  match Str.split text with
  | [] => true
  | tok :: _ => match Conv.py_float tok with Ok _ => false | Raise _ => true end
  end.

Definition has_no_number (key text : string) : bool :=
  (is_size_key key && no_int_token text)
  || (is_float_key key && no_float_token text).

(** The blocks entered into a map one after the other, as assignments
    [devices[id] = fields]. *)
Definition collect_from (d : list (Z * fields)) (bs : list (Z * fields))
  : list (Z * fields) :=
  List.fold_left (fun d b => Dict.set Z.eqb d (fst b) (snd b)) bs d.

Definition collect (bs : list (Z * fields)) : list (Z * fields) :=
  collect_from [] bs.

(** A map keyed by integers as a device map. *)
Definition lift (d : list (Z * fields)) : device_map :=
  List.map (fun b => (VInt (fst b), snd b)) d.

(** The declared id of a line read off the text alone, as the words
    "a line that begins with DEV ID and an integer" have it: what is left
    of the line after "DEV ID ", if the line begins so. *)
Fixpoint strip_prefix (p s : string) : option string :=
  match p with
  | EmptyString => Some s
  | String a p' =>
      match s with
      | String b s' => if Ascii.eqb a b then strip_prefix p' s' else None
      | EmptyString => None
      end
  end.

(** The run of digits a text begins with. *)
Fixpoint leading_digits (s : string) : string :=
  match s with
  | String c s' => if Char.is_digit c then String c (leading_digits s') else ""
  | EmptyString => ""
  end.

(** The digits a boundary line declares: the whole run of digits after
    "DEV ID ", which has to have a digit. *)
Definition dev_id_digits (line : string) : option string :=
  match strip_prefix "DEV ID " line with
  | Some rest =>
      match leading_digits rest with
      | EmptyString => None
      | digits => Some digits
      end
  | None => None
  end.

(** The ids the lines of a text declare, in the order of the text. *)
Fixpoint declared_ids (lines : list string) : list Z :=
  match lines with
  | [] => []
  | l :: rest =>
      match dev_id_digits l with
      | Some digits => decimal digits :: declared_ids rest
      | None => declared_ids rest
      end
  end.

End Grammar.

(** ** A stand-in for the tool, to run the detector on given reports *)

Module Tool.

Local Open Scope string_scope.

Definition report (code : Z) (out : string) : CompletedProcess :=
  {| returncode := code; stdout := Some out; stderr := Some "" |}.

(** A tool that answers the four category queries with the given
    processes and cannot be started on any other command line. *)
Definition efsmi (device memory temp usage : CompletedProcess)
  : subprocess_run :=
  fun command =>
    match command with
    | [prog; q; d; category] =>
        if String.eqb prog "efsmi" && String.eqb q "-q" && String.eqb d "-d" then
          if String.eqb category "DEVICE" then Completed device
          else if String.eqb category "MEMORY" then Completed memory
          else if String.eqb category "TEMP" then Completed temp
          else if String.eqb category "USAGE" then Completed usage
          else Completed (report 1 "")
        else Failed "[Errno 2] No such file or directory"
    | _ => Failed "[Errno 2] No such file or directory"
    end.

Definition device_text : string :=
  Grammar.unlines ["DEV ID 0"; "    Dev Name : GCU0"; "    Dev UUID : abc"].
Definition memory_text : string :=
  Grammar.unlines ["DEV ID 0"; "    Total Size : 32768 MiB"; "    Used Size : 1024 MiB"].
Definition temp_text : string :=
  Grammar.unlines ["DEV ID 0"; "    GCU Temp : 45 C"].
Definition usage_text : string :=
  Grammar.unlines ["DEV ID 0"; "    GCU Usage : 12 %"].


(** The four reports of one healthy device. *)
Definition healthy_run : subprocess_run :=
  efsmi (report 0 device_text) (report 0 memory_text)
        (report 0 temp_text) (report 0 usage_text).


(** The identity report holds the no-devices marker. *)
Definition no_devices_run : subprocess_run :=
  efsmi (report 0 "No devices found") (report 0 memory_text)
        (report 0 temp_text) (report 0 usage_text).

(** The identity query exits with status 1. *)
Definition failing_process : CompletedProcess :=
  {| returncode := 1; stdout := Some "boom"; stderr := Some "bad flag" |}.
Definition failing_run : subprocess_run :=
  efsmi failing_process (report 0 memory_text)
        (report 0 temp_text) (report 0 usage_text).
Definition marker_exit_1_run : subprocess_run :=
  efsmi (report 1 "no devices") (report 0 memory_text)
        (report 0 temp_text) (report 0 usage_text).

End Tool.

(** ** Vocabulary of the statements about the join *)

Module Join.

Local Open Scope string_scope.

(** The categories an identity entry is looked up in. *)
Inductive category : Type := MEMORY | TEMP | USAGE.

Definition query (c : category) : list string :=
  ["efsmi"; "-q"; "-d";
   match c with MEMORY => "MEMORY" | TEMP => "TEMP" | USAGE => "USAGE" end].

Definition identity_query : list string := ["efsmi"; "-q"; "-d"; "DEVICE"].




(** The field names the join reads. *)
Definition required_fields : list string :=
  ["DEV_ID"; "Dev_Name"; "Dev_UUID"; "GCU_Usage"; "Total_Size"; "Used_Size";
   "GCU_Temp"].



(** The record of the healthy device of [Tool.healthy_run]. *)
Definition healthy_device : EFSMI.GPUDeviceInfo.t :=
  {| EFSMI.GPUDeviceInfo.index := VInt 0;
     EFSMI.GPUDeviceInfo.device_index := VInt 0;
     EFSMI.GPUDeviceInfo.device_chip_index := VInt 0;
     EFSMI.GPUDeviceInfo.name := VStr "GCU0";
     EFSMI.GPUDeviceInfo.uuid := VStr "abc";
     EFSMI.GPUDeviceInfo.vendor := EFSMI.Enflame;
     EFSMI.GPUDeviceInfo.type := EFSMI.GPU;
     EFSMI.GPUDeviceInfo.core :=
       {| EFSMI.GPUCoreInfo.utilization_rate := VFloat (FNum 12) |};
     EFSMI.GPUDeviceInfo.memory :=
       {| EFSMI.MemoryInfo.is_unified_memory := false;
          EFSMI.MemoryInfo.total := VInt 34359738368;
          EFSMI.MemoryInfo.used := VInt 1073741824;
          EFSMI.MemoryInfo.utilization_rate := VFloat (FNum 12) |};
     EFSMI.GPUDeviceInfo.temperature := VFloat (FNum 45) |}.

End Join.

(** ** Vocabulary of the further statements *)

Module Pred.

Local Open Scope string_scope.

(** The exception a computation ends with, if it does. *)
Definition error_of {A : Type} (r : result A) : option exn :=
  match r with
  | Ok _ => None
  | Raise e => Some e
  end.

(** The errors of a conversion: no leading token, or a token that does
    not convert. *)
Definition conversion_error (e : exn) : Prop :=
  e = IndexError \/ exists literal, e = ValueError literal.

(** The values that occur as keys of a device map. *)
Definition is_id (v : value) : bool :=
  match v with
  | VInt _ | VStr _ => true
  | VFloat _ => false
  end.

(** The line matches neither pattern. *)
Definition unmatched (line : string) : bool :=
  negb (Grammar.is_boundary line)
  && match Grammar.property_of line with Some _ => false | None => true end.

(** The text has no blank. *)
Definition no_blank (s : string) : bool :=
  Str.forallb (fun c => negb (Ascii.eqb c " ")) s.

(** What a line of a block makes of the value [acc] held under [key]. *)
Definition latest (key : string) (acc : option value) (l : string)
  : option value :=
  match Grammar.property_of l with
  | Some (k, text) =>
      if String.eqb k key
      then match EFSMI.coerce k text with
           | Ok v => Some v
           | Raise _ => acc
           end
      else acc
  | None => acc
  end.

(** The value that the last property line of [props] with the key [key]
    converts to. *)
Definition last_value (key : string) (props : list string) : option value :=
  List.fold_left (latest key) props None.




(** The record [dev] is the join of the identity entry [entry] with the
    entries of the same id in the three other maps. *)
Definition joined (memory_info temperature_info usage_info : device_map)
    (dev : EFSMI.GPUDeviceInfo.t) (entry : value * fields) : Prop :=
  Dict.get String.eqb (snd entry) "DEV_ID" = Some (EFSMI.GPUDeviceInfo.index dev)
  /\ Dict.get String.eqb (snd entry) "Dev_Name" = Some (EFSMI.GPUDeviceInfo.name dev)
  /\ Dict.get String.eqb (snd entry) "Dev_UUID" = Some (EFSMI.GPUDeviceInfo.uuid dev)
  /\ (exists usage,
        Dict.get value_eqb usage_info (fst entry) = Some usage
        /\ Dict.get String.eqb usage "GCU_Usage"
           = Some (EFSMI.GPUCoreInfo.utilization_rate (EFSMI.GPUDeviceInfo.core dev)))
  /\ (exists mem,
        Dict.get value_eqb memory_info (fst entry) = Some mem
        /\ Dict.get String.eqb mem "Total_Size"
           = Some (EFSMI.MemoryInfo.total (EFSMI.GPUDeviceInfo.memory dev))
        /\ Dict.get String.eqb mem "Used_Size"
           = Some (EFSMI.MemoryInfo.used (EFSMI.GPUDeviceInfo.memory dev)))
  /\ (exists temp,
        Dict.get value_eqb temperature_info (fst entry) = Some temp
        /\ Dict.get String.eqb temp "GCU_Temp"
           = Some (EFSMI.GPUDeviceInfo.temperature dev)).

(** What every record of this detector has in common. *)
Definition uniform (dev : EFSMI.GPUDeviceInfo.t) : Prop :=
  EFSMI.GPUDeviceInfo.vendor dev = EFSMI.Enflame
  /\ EFSMI.GPUDeviceInfo.type dev = EFSMI.GPU
  /\ EFSMI.MemoryInfo.is_unified_memory (EFSMI.GPUDeviceInfo.memory dev) = false
  /\ EFSMI.GPUDeviceInfo.device_index dev = EFSMI.GPUDeviceInfo.index dev
  /\ EFSMI.GPUDeviceInfo.device_chip_index dev = EFSMI.GPUDeviceInfo.index dev
  /\ EFSMI.MemoryInfo.utilization_rate (EFSMI.GPUDeviceInfo.memory dev)
     = EFSMI.GPUCoreInfo.utilization_rate (EFSMI.GPUDeviceInfo.core dev).

(** The four command lines, in the order the gather runs them. *)
Definition all_queries : list (list string) :=
  [Join.identity_query; Join.query Join.MEMORY; Join.query Join.TEMP;
   Join.query Join.USAGE].

(** The error of the first query of [queries] that fails. *)
Fixpoint first_failure (run : subprocess_run) (queries : list (list string))
  : option exn :=
  match queries with
  | [] => None
  | q :: rest =>
      match EFSMI._get_gpu_info run q with
      | Raise e => Some e
      | Ok _ => first_failure run rest
      end
  end.


(** The ids of [ids] in the order of their first occurrence, those of
    [seen] left out. *)
Fixpoint first_seen (seen ids : list Z) : list Z :=
  match ids with
  | [] => []
  | i :: rest =>
      if List.existsb (Z.eqb i) seen then first_seen seen rest
      else i :: first_seen (i :: seen) rest
  end.

(** The accumulator is closed, or holds an integer or a text as its id. *)
Definition holds_id (cur : fields) : Prop :=
  cur = [] \/ exists k, Dict.get String.eqb cur "DEV_ID" = Some k /\ is_id k = true.

(** Every entry is filed under the id its own fields hold, an integer or
    a text. *)
Definition filed_by_id (d : device_map) : Prop :=
  forall k f, In (k, f) d ->
    Dict.get String.eqb f "DEV_ID" = Some k /\ is_id k = true.

(** No field name of any entry has a blank. *)
Definition names_without_blank (f : fields) : Prop :=
  forall name v, In (name, v) f -> no_blank name = true.

End Pred.

(** More reports for the stand-in of the tool. *)
Module Report.

Local Open Scope string_scope.

(** The identity query prints nothing and exits with status 0. *)
Definition silent_run : subprocess_run :=
  Tool.efsmi (Tool.report 0 "") (Tool.report 0 Tool.memory_text)
             (Tool.report 0 Tool.temp_text) (Tool.report 0 Tool.usage_text).




End Report.

(** * Properties *)

Local Open Scope string_scope.

(** ** The model on concrete inputs *)

Example lower_ex : Str.lower "No Devices Found" = "no devices found".
Proof. reflexivity. Qed.

Example split_ex : Str.split "  32768   MiB " = ["32768"; "MiB"].
Proof. reflexivity. Qed.

Example strip_ex : Str.strip "  45 C  " = "45 C".
Proof. reflexivity. Qed.

Example of_Z_ex : Str.of_Z (-9) = "-9" /\ Str.of_Z 0 = "0" /\ Str.of_Z 127 = "127".
Proof. repeat split; reflexivity. Qed.

Example of_list_ex :
  Str.of_list ["efsmi"; "-q"; "-d"; "DEVICE"] = "['efsmi', '-q', '-d', 'DEVICE']".
Proof. reflexivity. Qed.

Example splitlines_ex :
  Str.splitlines (Grammar.unlines ["DEV ID 0"; ""; "  Dev Name : GCU0"])
  = ["DEV ID 0"; ""; "  Dev Name : GCU0"].
Proof. reflexivity. Qed.

Example property_ex :
  List.map Grammar.property_of
    ["  Dev Name   :  GCU0  "; "Dev  Name : x"; "a:b:c"; " : x"; "DEV ID : 5"]
  = [Some ("Dev_Name", "GCU0"); None; Some ("a", "b:c"); None;
     Some ("DEV_ID", "5")].
Proof. vm_compute. reflexivity. Qed.

Example boundary_ex :
  List.map Grammar.boundary_id
    ["DEV ID 0"; " DEV ID 0"; "DEV ID 12abc"; "DEV ID"; "DEV ID 007 : x"]
  = [Some "0"; None; Some "12"; None; Some "007"].
Proof. vm_compute. reflexivity. Qed.

Example py_int_ex :
  List.map Conv.py_int ["12"; "-5"; "1_0"; "007"; "12MiB"; ""]
  = [Ok 12%Z; Ok (-5)%Z; Ok 10%Z; Ok 7%Z;
     Raise (ValueError "12MiB"); Raise (ValueError "")].
Proof. vm_compute. reflexivity. Qed.

Example py_float_ex :
  List.map Conv.py_float ["45"; "12.5"; "1e-2"; "inf"; "N/A"]
  = [Ok (FNum 45); Ok (FNum (25 # 2)); Ok (FNum (1 # 100)); Ok (FInf false);
     Raise (ValueError "N/A")].
Proof. vm_compute. reflexivity. Qed.

Example parse_ex :
  EFSMI.parse_output
    (Grammar.unlines ["-- report --"; "DEV ID 0"; "  Dev Name : GCU0";
                      "DEV ID 1"; "  Dev Name : GCU1"])
  = Ok [(VInt 0, [("DEV_ID", VInt 0); ("Dev_Name", VStr "GCU0")]);
        (VInt 1, [("DEV_ID", VInt 1); ("Dev_Name", VStr "GCU1")])].
Proof. vm_compute. reflexivity. Qed.

(** ** Strings *)

Section StringFacts.

Lemma append_assoc (a b c : string) : (a ++ b) ++ c = a ++ (b ++ c).
Proof. induction a as [|x a IH]; simpl; [reflexivity | now rewrite IH]. Qed.

Lemma append_nil_r (a : string) : a ++ "" = a.
Proof. induction a as [|x a IH]; simpl; [reflexivity | now rewrite IH]. Qed.

Lemma prefix_append (x b : string) : String.prefix x (x ++ b) = true.
Proof.
  induction x as [|c x IH]; simpl.
  - now destruct b.
  - destruct (ascii_dec c c) as [_|ne]; [exact IH | now elim ne].
Qed.

Lemma contains_unfold (sub s : string) :
  Str.contains sub s =
  if String.prefix sub s then true
  else match s with
       | EmptyString => false
       | String _ s' => Str.contains sub s'
       end.
Proof. destruct s; reflexivity. Qed.

Lemma contains_here (x b : string) : Str.contains x (x ++ b) = true.
Proof. rewrite contains_unfold, prefix_append. reflexivity. Qed.

Lemma contains_self (x : string) : Str.contains x x = true.
Proof. rewrite <- (append_nil_r x) at 2. apply contains_here. Qed.

Lemma contains_skip (x a s : string) :
  Str.contains x s = true -> Str.contains x (a ++ s) = true.
Proof.
  intros H. induction a as [|c a IH]; [exact H|].
  change (String c a ++ s) with (String c (a ++ s)).
  rewrite contains_unfold, IH.
  now destruct (String.prefix x (String c (a ++ s))).
Qed.

End StringFacts.

(** ** The command runner *)

Section Runner.

Variables (run : subprocess_run) (command : list string).
Variables (res : CompletedProcess) (output : string).
Hypothesis ran : run command = Completed res.
Hypothesis captured : stdout res = Some output.

Lemma run_command_no_devices :
  Str.contains "no devices" (Str.lower output) = true ->
  EFSMI._run_command run command = Ok None.
Proof.
  intros marker. unfold EFSMI._run_command.
  rewrite ran, captured, marker. reflexivity.
Qed.

Lemma run_command_nonzero :
  Str.contains "no devices" (Str.lower output) = false ->
  returncode res <> 0%Z ->
  EFSMI._run_command run command =
  Raise (Exception
    ("Failed to execute " ++ Str.of_list command
     ++ ": Unexpected return code: " ++ Str.of_Z (returncode res)
     ++ ", stdout: " ++ output
     ++ ", stderr: " ++ Str.of_option (stderr res))).
Proof.
  intros marker code. unfold EFSMI._run_command.
  rewrite ran, captured, marker.
  apply Z.eqb_neq in code. rewrite code. cbn [negb].
  unfold EFSMI.reraise. rewrite captured. cbn [Str.of_option].
  do 2 f_equal. rewrite !append_assoc. reflexivity.
Qed.

End Runner.

(** C1, as the code has it.  When the captured stdout holds the
    no-devices marker (compared in lower case), the runner raises nothing
    and returns no data; the category parse [_get_gpu_info] then raises
    the error "Failed to get GPU base info" and yields no map. *)
Theorem no_devices_marker_fails_category :
  forall (run : subprocess_run) (command : list string)
         (res : CompletedProcess) (output : string),
    run command = Completed res ->
    stdout res = Some output ->
    Str.contains "no devices" (Str.lower output) = true ->
    EFSMI._run_command run command = Ok None
    /\ EFSMI._get_gpu_info run command
       = Raise (Exception "Failed to get GPU base info").
Proof.
  intros run command res output ran captured marker.
  pose proof (run_command_no_devices run command res output ran captured marker) as H.
  split; [exact H|].
  unfold EFSMI._get_gpu_info. rewrite H. reflexivity.
Qed.

Lemma no_devices_marker_fails_category_witness :
  EFSMI._run_command Tool.no_devices_run ["efsmi"; "-q"; "-d"; "DEVICE"] = Ok None
  /\ EFSMI._get_gpu_info Tool.no_devices_run ["efsmi"; "-q"; "-d"; "DEVICE"]
     = Raise (Exception "Failed to get GPU base info").
Proof.
  apply (no_devices_marker_fails_category Tool.no_devices_run
           ["efsmi"; "-q"; "-d"; "DEVICE"]
           (Tool.report 0 "No devices found") "No devices found");
    reflexivity.
Defined.

(** C1 as stated fails: a report that consists of the no-devices marker
    makes the category parse raise; it does not return the empty map. *)
Lemma no_devices_marker_counterexample :
  Str.contains "no devices" (Str.lower "No devices found") = true
  /\ EFSMI._get_gpu_info Tool.no_devices_run ["efsmi"; "-q"; "-d"; "DEVICE"]
     = Raise (Exception "Failed to get GPU base info")
  /\ EFSMI._get_gpu_info Tool.no_devices_run ["efsmi"; "-q"; "-d"; "DEVICE"]
     <> Ok [].
Proof.
  split; [reflexivity|]. split; [reflexivity|].
  intros H. discriminate H.
Qed.

(** C5, as the code has it.  A command that exits with a non-zero status
    and whose stdout does not hold the no-devices marker makes the runner
    raise an error whose message is "Failed to execute <command>:
    Unexpected return code: <code>, stdout: <stdout>, stderr: <stderr>";
    the exit code, the command and both streams occur in it. *)
Theorem nonzero_exit_raises :
  forall (run : subprocess_run) (command : list string)
         (res : CompletedProcess) (output : string),
    run command = Completed res ->
    stdout res = Some output ->
    returncode res <> 0%Z ->
    Str.contains "no devices" (Str.lower output) = false ->
    exists message : string,
      EFSMI._run_command run command = Raise (Exception message)
      /\ message
         = "Failed to execute " ++ Str.of_list command
           ++ ": Unexpected return code: " ++ Str.of_Z (returncode res)
           ++ ", stdout: " ++ output
           ++ ", stderr: " ++ Str.of_option (stderr res)
      /\ Str.contains (Str.of_Z (returncode res)) message = true
      /\ Str.contains (Str.of_list command) message = true
      /\ Str.contains output message = true
      /\ Str.contains (Str.of_option (stderr res)) message = true.
Proof.
  intros run command res output ran captured code marker.
  eexists. split; [|split; [reflexivity|]].
  - apply (run_command_nonzero run command res output ran captured marker code).
  - repeat split.
    + apply contains_skip, contains_skip, contains_skip, contains_here.
    + apply contains_skip, contains_here.
    + do 5 apply contains_skip. apply contains_here.
    + do 7 apply contains_skip. apply contains_self.
Qed.

Lemma nonzero_exit_raises_witness :
  exists message : string,
    EFSMI._run_command Tool.failing_run ["efsmi"; "-q"; "-d"; "DEVICE"]
    = Raise (Exception message)
    /\ message
       = "Failed to execute ['efsmi', '-q', '-d', 'DEVICE']: Unexpected return code: 1, stdout: boom, stderr: bad flag"
    /\ Str.contains "1" message = true
    /\ Str.contains "['efsmi', '-q', '-d', 'DEVICE']" message = true
    /\ Str.contains "boom" message = true
    /\ Str.contains "bad flag" message = true.
Proof.
  apply (nonzero_exit_raises Tool.failing_run ["efsmi"; "-q"; "-d"; "DEVICE"]
           Tool.failing_process "boom"); [reflexivity | reflexivity | discriminate | reflexivity].
Defined.

(** C5 as stated fails: with a non-zero exit status and the non-empty
    stdout "no devices" the runner raises nothing and returns no data. *)
Lemma nonzero_exit_counterexample :
  Tool.marker_exit_1_run ["efsmi"; "-q"; "-d"; "DEVICE"]
  = Completed (Tool.report 1 "no devices")
  /\ EFSMI._run_command Tool.marker_exit_1_run ["efsmi"; "-q"; "-d"; "DEVICE"]
     = Ok None.
Proof. split; reflexivity. Qed.

(** ** The join *)

(** C3.  On the reports of one device with id 0, name GCU0, uuid abc,
    memory tokens "32768 MiB" and "1024 MiB", temperature "45 C" and usage
    "12 %", the gather returns exactly one record: index 0, name GCU0,
    uuid abc, memory total 34359738368 and used 1073741824 bytes, memory
    and core utilization rate 12.0, temperature 45.0, not unified memory. *)
Theorem gather_end_to_end :
  EFSMI._gather_gpu_info Tool.healthy_run = Ok [Join.healthy_device].
Proof. vm_compute. reflexivity. Qed.

Section JoinFacts.

Variables memory_info temperature_info usage_info : device_map.













End JoinFacts.




(** ** Dictionaries *)

Section DictFacts.

Context {K V : Type} (eqb : K -> K -> bool).
Hypothesis eqb_spec : forall a b, reflect (a = b) (eqb a b).

Lemma get_set_same (d : list (K * V)) (k : K) (v : V) :
  Dict.get eqb (Dict.set eqb d k v) k = Some v.
Proof.
  induction d as [|[k0 v0] d IH]; simpl.
  - now destruct (eqb_spec k k).
  - destruct (eqb_spec k0 k) as [->|ne]; simpl.
    + now destruct (eqb_spec k k).
    + now destruct (eqb_spec k0 k).
Qed.

Lemma get_set_other (d : list (K * V)) (k k' : K) (v : V) :
  k <> k' -> Dict.get eqb (Dict.set eqb d k v) k' = Dict.get eqb d k'.
Proof.
  intros ne. induction d as [|[k0 v0] d IH]; simpl.
  - now destruct (eqb_spec k k').
  - destruct (eqb_spec k0 k) as [->|ne0]; simpl.
    + now destruct (eqb_spec k k').
    + now rewrite IH.
Qed.

Lemma get_none_iff (d : list (K * V)) (k : K) :
  Dict.get eqb d k = None <-> ~ In k (Dict.keys d).
Proof.
  induction d as [|[k0 v0] d IH]; simpl.
  - tauto.
  - destruct (eqb_spec k0 k) as [->|ne]; [intuition discriminate | tauto].
Qed.

Lemma set_fresh (d : list (K * V)) (k : K) (v : V) :
  ~ In k (Dict.keys d) -> Dict.set eqb d k v = (d ++ [(k, v)])%list.
Proof.
  induction d as [|[k0 v0] d IH]; simpl; [reflexivity|].
  intros fresh. destruct (eqb_spec k0 k) as [->|ne]; [tauto|].
  rewrite IH; tauto.
Qed.

Lemma keys_set_present (d : list (K * V)) (k : K) (v : V) :
  In k (Dict.keys d) -> Dict.keys (Dict.set eqb d k v) = Dict.keys d.
Proof.
  induction d as [|[k0 v0] d IH]; simpl; [contradiction|].
  intros present. destruct (eqb_spec k0 k) as [->|ne]; simpl; [reflexivity|].
  f_equal. apply IH. now destruct present.
Qed.

Lemma in_keys_set (d : list (K * V)) (k k' : K) (v : V) :
  In k' (Dict.keys (Dict.set eqb d k v)) <-> k' = k \/ In k' (Dict.keys d).
Proof.
  destruct (in_dec (fun a b => reflect_dec _ _ (eqb_spec a b)) k (Dict.keys d))
    as [present|fresh].
  - rewrite keys_set_present by exact present.
    split; [tauto | intros [->|]; assumption].
  - rewrite set_fresh by exact fresh. unfold Dict.keys.
    rewrite map_app, in_app_iff. simpl. intuition.
Qed.

Lemma NoDup_keys_set (d : list (K * V)) (k : K) (v : V) :
  NoDup (Dict.keys d) -> NoDup (Dict.keys (Dict.set eqb d k v)).
Proof.
  intros nodup.
  destruct (in_dec (fun a b => reflect_dec _ _ (eqb_spec a b)) k (Dict.keys d))
    as [present|fresh].
  - now rewrite keys_set_present.
  - rewrite set_fresh by exact fresh. unfold Dict.keys.
    rewrite map_app. simpl.
    apply NoDup_app; [exact nodup | repeat constructor; simpl; tauto |].
    intros a Ha [<-|[]]. now apply fresh.
Qed.

End DictFacts.

(** ** The loop over the lines *)

Section LoopFacts.

Lemma is_boundary_false (line : string) :
  Grammar.is_boundary line = false ->
  Re.re_match EFSMI.dev_id_pattern line = None.
Proof.
  unfold Grammar.is_boundary, Grammar.boundary_id.
  now destruct (Re.re_match EFSMI.dev_id_pattern line).
Qed.

Lemma boundary_id_some (line digits : string) :
  Grammar.boundary_id line = Some digits ->
  exists m, Re.re_match EFSMI.dev_id_pattern line = Some m
            /\ Re.group 1 m = digits.
Proof.
  unfold Grammar.boundary_id.
  destruct (Re.re_match EFSMI.dev_id_pattern line) as [m|]; [|discriminate].
  intros [= <-]. now exists m.
Qed.

(** A line that is no boundary leaves a closed accumulator closed. *)
Lemma loop_body_closed (devices : device_map) (line : string) :
  Grammar.is_boundary line = false ->
  EFSMI.loop_body (devices, []) line = Ok (devices, []).
Proof.
  intros nb. unfold EFSMI.loop_body.
  rewrite (is_boundary_false line nb).
  now destruct (Re.re_match EFSMI.property_pattern line).
Qed.

(** A line that is no boundary adds its property, if it is one, to the
    open accumulator. *)
Lemma loop_body_open (devices : device_map) (cur : fields) (line : string) :
  Grammar.is_boundary line = false ->
  Dict.truthy cur = true ->
  EFSMI.loop_body (devices, cur) line
  = (cur' <- Grammar.add_property cur line ;; Ok (devices, cur')).
Proof.
  intros nb opened. unfold EFSMI.loop_body, Grammar.add_property, Grammar.property_of.
  rewrite (is_boundary_false line nb), opened.
  destruct (Re.re_match EFSMI.property_pattern line) as [m|]; [|reflexivity].
  now destruct (EFSMI.coerce _ _).
Qed.

(** A boundary line flushes the accumulator and opens a new one. *)
Lemma loop_body_boundary (devices : device_map) (cur : fields)
    (line digits : string) :
  Grammar.boundary_id line = Some digits ->
  EFSMI.loop_body (devices, cur) line
  = (devices' <- EFSMI.flush devices cur ;;
     n <- Conv.py_int digits ;;
     Ok (devices', [("DEV_ID", VInt n)])).
Proof.
  intros b. destruct (boundary_id_some line digits b) as (m & Hm & <-).
  unfold EFSMI.loop_body. now rewrite Hm.
Qed.

Lemma loop_app (st : EFSMI.state) (l1 l2 : list string) :
  EFSMI.loop st (l1 ++ l2)%list
  = (st' <- EFSMI.loop st l1 ;; EFSMI.loop st' l2).
Proof.
  revert st. induction l1 as [|l l1 IH]; intros st; simpl; [reflexivity|].
  destruct (EFSMI.loop_body st l); simpl; [apply IH | reflexivity].
Qed.

(** Lines before the first boundary do not move the initial state. *)
Lemma loop_before_first_boundary (devices : device_map) (pre : list string) :
  forallb (fun l => negb (Grammar.is_boundary l)) pre = true ->
  EFSMI.loop (devices, []) pre = Ok (devices, []).
Proof.
  induction pre as [|l pre IH]; cbn [EFSMI.loop forallb]; [reflexivity|].
  intros H. apply andb_true_iff in H. destruct H as [nb rest].
  apply negb_true_iff in nb.
  rewrite (loop_body_closed devices l nb). cbn [bind]. now apply IH.
Qed.

Lemma truthy_set (cur : fields) (k : string) (v : value) :
  Dict.truthy (Dict.set String.eqb cur k v) = true.
Proof.
  destruct cur as [|[k0 v0] cur]; simpl; [reflexivity|].
  now destruct (String.eqb k0 k).
Qed.

Lemma add_property_truthy (cur cur' : fields) (line : string) :
  Dict.truthy cur = true ->
  Grammar.add_property cur line = Ok cur' ->
  Dict.truthy cur' = true.
Proof.
  intros opened. unfold Grammar.add_property.
  destruct (Grammar.property_of line) as [[key text]|].
  - destruct (EFSMI.coerce key text); simpl; [|discriminate].
    intros [= <-]. apply truthy_set.
  - now intros [= <-].
Qed.

(** Once a boundary line has been read the accumulator stays open. *)
Lemma loop_body_truthy (st st' : EFSMI.state) (line : string) :
  EFSMI.loop_body st line = Ok st' ->
  Dict.truthy (snd st) = true \/ Grammar.is_boundary line = true ->
  Dict.truthy (snd st') = true.
Proof.
  destruct st as [devices cur]. intros step H.
  destruct (Grammar.boundary_id line) as [digits|] eqn:b.
  - rewrite (loop_body_boundary devices cur line digits b) in step.
    destruct (EFSMI.flush devices cur); simpl in step; [|discriminate].
    destruct (Conv.py_int digits); simpl in step; [|discriminate].
    now injection step as <-.
  - assert (nb : Grammar.is_boundary line = false)
      by (unfold Grammar.is_boundary; now rewrite b).
    destruct H as [opened|H]; [|congruence]. simpl in opened.
    rewrite (loop_body_open devices cur line nb opened) in step.
    destruct (Grammar.add_property cur line) as [cur'|] eqn:E;
      simpl in step; [|discriminate].
    injection step as <-. simpl. eapply add_property_truthy; eassumption.
Qed.

Lemma loop_truthy (lines : list string) :
  forall st st',
    EFSMI.loop st lines = Ok st' ->
    Dict.truthy (snd st) = true \/ existsb Grammar.is_boundary lines = true ->
    Dict.truthy (snd st') = true.
Proof.
  induction lines as [|l lines IH]; intros st st'; simpl.
  - intros [= <-] [H|H]; [exact H | discriminate].
  - destruct (EFSMI.loop_body st l) as [st1|] eqn:step; simpl; [|discriminate].
    intros run H. apply (IH st1 st' run).
    destruct (Dict.truthy (snd st1)) eqn:t1; [now left|right].
    destruct H as [H|H].
    + rewrite (loop_body_truthy st st1 l step) in t1; [discriminate | now left].
    + apply orb_true_iff in H. destruct H as [H|H]; [|exact H].
      rewrite (loop_body_truthy st st1 l step) in t1; [discriminate | now right].
Qed.

End LoopFacts.

(** C6.  The lines of a text that come before its first device-boundary
    line are dropped, property lines among them: the parse of the text is
    the parse of the remaining lines, so nothing of the dropped lines is
    in the output map, from which alone the records are built. *)
Theorem lines_before_first_boundary_dropped :
  forall (output : string) (pre rest : list string),
    Str.splitlines output = (pre ++ rest)%list ->
    forallb (fun l => negb (Grammar.is_boundary l)) pre = true ->
    EFSMI.parse_output output = EFSMI.parse_lines rest.
Proof.
  intros output pre rest lines nb.
  unfold EFSMI.parse_output, EFSMI.parse_lines.
  rewrite lines, loop_app.
  pose proof (loop_before_first_boundary [] pre nb) as H.
  unfold EFSMI.state, device_map, fields in *. rewrite H.
  reflexivity.
Qed.

Lemma lines_before_first_boundary_dropped_witness :
  EFSMI.parse_output
    (Grammar.unlines ["Driver Ver : 1.2"; "GCU Temp : hot"; "DEV ID 0";
                      "GCU Temp : 45 C"])
  = EFSMI.parse_lines ["DEV ID 0"; "GCU Temp : 45 C"].
Proof.
  apply (lines_before_first_boundary_dropped _
           ["Driver Ver : 1.2"; "GCU Temp : hot"]);
    vm_compute; reflexivity.
Defined.

(** ** Conversion by key name *)

Section CoerceFacts.

Lemma size_key_not_float (key : string) :
  Str.endswith "_Size" key = true ->
  String.eqb key "GCU_Temp" = false /\ String.eqb key "GCU_Usage" = false.
Proof.
  intros size. split.
  - destruct (String.eqb_spec key "GCU_Temp") as [->|]; [discriminate size | reflexivity].
  - destruct (String.eqb_spec key "GCU_Usage") as [->|]; [discriminate size | reflexivity].
Qed.

Lemma coerce_size (key text tok : string) (toks : list string) (n : Z) :
  Str.endswith "_Size" key = true ->
  Str.split text = tok :: toks ->
  Conv.py_int tok = Ok n ->
  EFSMI.coerce key text = Ok (VInt (n * 1024 * 1024)).
Proof.
  intros size tokens conv.
  destruct (size_key_not_float key size) as [nt nu].
  unfold EFSMI.coerce, EFSMI.first_token.
  rewrite size, tokens. cbn [first bind]. rewrite conv. cbn [bind].
  rewrite nt, nu. reflexivity.
Qed.

Lemma coerce_plain (key text : string) :
  Str.endswith "_Size" key = false ->
  Grammar.is_float_key key = false ->
  EFSMI.coerce key text = Ok (VStr text).
Proof.
  intros ns nf. apply orb_false_iff in nf. destruct nf as [nt nu].
  unfold EFSMI.coerce. now rewrite ns, nt, nu.
Qed.

Lemma coerce_malformed (key text : string) :
  Grammar.has_no_number key text = true ->
  exists e, EFSMI.coerce key text = Raise e.
Proof.
  unfold Grammar.has_no_number, Grammar.is_size_key, Grammar.is_float_key.
  intros H. apply orb_true_iff in H.
  destruct H as [H|H]; apply andb_true_iff in H; destruct H as [kind bad].
  - unfold EFSMI.coerce, EFSMI.first_token. rewrite kind.
    unfold Grammar.no_int_token in bad.
    destruct (Str.split text) as [|tok toks]; cbn [first bind];
      [now eexists|].
    destruct (Conv.py_int tok); [discriminate bad | now eexists].
  - unfold Grammar.no_float_token in bad.
    apply orb_true_iff in kind.
    destruct kind as [kind|kind]; apply String.eqb_eq in kind; subst key;
      unfold EFSMI.coerce, EFSMI.first_token;
      cbn [Str.endswith String.eqb Ascii.eqb Bool.eqb bind];
      (destruct (Str.split text) as [|tok toks]; cbn [first bind];
       [now eexists|]);
      (destruct (Conv.py_float tok); [discriminate bad | now eexists]).
Qed.

End CoerceFacts.

(** C7, as the code has it.  A property line inside a device block whose
    normalized key ends with "_Size" (this spelling, the underscore
    included) and whose value starts with a token that [int] converts to
    [n] is stored as the integer [n * 1024 * 1024]; the witness is the
    token "100 MiB", stored as 104857600. *)
Theorem size_field_stored_as_bytes :
  forall (devices : device_map) (cur : fields) (line key text tok : string)
         (toks : list string) (n : Z),
    Dict.truthy cur = true ->
    Grammar.is_boundary line = false ->
    Grammar.property_of line = Some (key, text) ->
    Str.endswith "_Size" key = true ->
    Str.split text = tok :: toks ->
    Conv.py_int tok = Ok n ->
    EFSMI.loop_body (devices, cur) line
    = Ok (devices, Dict.set String.eqb cur key (VInt (n * 1024 * 1024))).
Proof.
  intros devices cur line key text tok toks n opened nb prop size tokens conv.
  rewrite (loop_body_open devices cur line nb opened).
  unfold Grammar.add_property. rewrite prop.
  rewrite (coerce_size key text tok toks n size tokens conv).
  reflexivity.
Qed.

Lemma size_field_stored_as_bytes_witness :
  EFSMI.loop_body ([], [("DEV_ID", VInt 0)]) "    Total Size : 100 MiB"
  = Ok ([], [("DEV_ID", VInt 0); ("Total_Size", VInt 104857600)]).
Proof.
  apply (size_field_stored_as_bytes [] [("DEV_ID", VInt 0)]
           "    Total Size : 100 MiB" "Total_Size" "100 MiB" "100" ["MiB"] 100);
    vm_compute; reflexivity.
Defined.

(** C7 as stated fails: the key "Page_size" ends with "size" and its
    value starts with the integer 100, yet the value is stored as text. *)
Lemma size_suffix_counterexample :
  Grammar.property_of "Page size : 100 MiB" = Some ("Page_size", "100 MiB")
  /\ Str.endswith "size" "Page_size" = true
  /\ Str.split "100 MiB" = ["100"; "MiB"]
  /\ Conv.py_int "100" = Ok 100%Z
  /\ EFSMI.parse_output (Grammar.unlines ["DEV ID 0"; "Page size : 100 MiB"])
     = Ok [(VInt 0, [("DEV_ID", VInt 0); ("Page_size", VStr "100 MiB")])].
Proof. repeat split; vm_compute; reflexivity. Qed.

(** C8.  A property line inside a device block whose key is converted to
    a number (a key ending with "_Size", "GCU_Temp" or "GCU_Usage") and
    whose value has no leading token that converts makes the parse of the
    whole category raise an error; no map, hence no default value, comes
    out. *)
Theorem malformed_number_fails_parse :
  forall (output : string) (pre post : list string) (line key text : string),
    Str.splitlines output = (pre ++ line :: post)%list ->
    existsb Grammar.is_boundary pre = true ->
    Grammar.is_boundary line = false ->
    Grammar.property_of line = Some (key, text) ->
    Grammar.has_no_number key text = true ->
    (exists e, EFSMI.parse_output output = Raise e)
    /\ (forall (run : subprocess_run) (command : list string)
               (res : CompletedProcess),
          run command = Completed res ->
          stdout res = Some output ->
          exists e, EFSMI._get_gpu_info run command = Raise e).
Proof.
  intros output pre post line key text lines block nb prop bad.
  assert (parse : exists e, EFSMI.parse_output output = Raise e).
  { unfold EFSMI.parse_output, EFSMI.parse_lines.
    rewrite lines, loop_app.
    destruct (EFSMI.loop ([], []) pre) as [[devices cur]|e] eqn:run;
      cbn [bind]; [|now eexists].
    assert (opened : Dict.truthy cur = true).
    { apply (loop_truthy pre _ _ run). now right. }
    cbn [EFSMI.loop]. rewrite (loop_body_open devices cur line nb opened).
    unfold Grammar.add_property. rewrite prop.
    destruct (coerce_malformed key text bad) as [e ->].
    cbn [bind]. now eexists. }
  split; [exact parse|].
  intros run command res ran captured.
  unfold EFSMI._get_gpu_info.
  destruct (EFSMI._run_command run command) as [[out|]|e] eqn:R;
    cbn [bind]; [| now eexists | now eexists].
  enough (out = output) as -> by exact parse.
  unfold EFSMI._run_command in R. rewrite ran, captured in R.
  destruct (Str.contains "no devices" (Str.lower output)); [discriminate R|].
  destruct (negb (returncode res =? 0)%Z); [discriminate R|].
  destruct (String.eqb output ""); [discriminate R|].
  now injection R as <-.
Qed.

Lemma malformed_number_fails_parse_witness :
  (exists e,
     EFSMI.parse_output (Grammar.unlines ["DEV ID 0"; "    GCU Temp : N/A"])
     = Raise e)
  /\ (forall (run : subprocess_run) (command : list string)
             (res : CompletedProcess),
        run command = Completed res ->
        stdout res = Some (Grammar.unlines ["DEV ID 0"; "    GCU Temp : N/A"]) ->
        exists e, EFSMI._get_gpu_info run command = Raise e).
Proof.
  apply (malformed_number_fails_parse _ ["DEV ID 0"] [] "    GCU Temp : N/A"
           "GCU_Temp" "N/A");
    vm_compute; reflexivity.
Defined.

(** ** The boundary pattern *)

Section RegexFacts.

Context {A : Type}.

Lemma accept_Lit (l s : string) (k : Re.cont A) :
  forall pos caps,
    Re.accept (Re.Lit l) pos (l ++ s) caps k
    = k (pos + String.length l)%nat s caps.
Proof.
  induction l as [|c l IH]; intros pos caps; cbn [Re.Lit Re.accept String.length].
  - now rewrite Nat.add_0_r.
  - cbn [String.append]. rewrite Ascii.eqb_refl, IH.
    now rewrite Nat.add_succ_r.
Qed.

Lemma accept_Lit_inv (l : string) (k : Re.cont A) (a : A) :
  forall s pos caps,
    Re.accept (Re.Lit l) pos s caps k = Some a ->
    exists s', s = l ++ s' /\ k (pos + String.length l)%nat s' caps = Some a.
Proof.
  induction l as [|c l IH]; intros s pos caps; cbn [Re.Lit Re.accept String.length].
  - rewrite Nat.add_0_r. intros H. now exists s.
  - destruct s as [|c' s]; [discriminate|].
    destruct (Ascii.eqb_spec c c') as [<-|]; [|discriminate].
    intros H. destruct (IH s (S pos) caps H) as (s' & -> & H').
    exists s'. split; [reflexivity|]. now rewrite Nat.add_succ_r.
Qed.

(** A starred character class runs to the end of the run of its
    characters when the continuation accepts there. *)
Lemma star_loop_run (p : ascii -> bool)
    (step : nat -> string -> Re.captures -> Re.cont A -> option A)
    (ds rest : string) (k : Re.cont A) :
  (forall pos s caps K, step pos s caps K = Re.accept (Re.Chr p) pos s caps K) ->
  Str.forallb p ds = true ->
  match rest with String c _ => p c | EmptyString => false end = false ->
  forall fuel pos caps,
    (String.length (ds ++ rest) <= fuel)%nat ->
    (exists a, k (pos + String.length ds)%nat rest caps = Some a) ->
    Re.star_loop step fuel pos (ds ++ rest) caps k
    = k (pos + String.length ds)%nat rest caps.
Proof.
  intros stepE run stop.
  induction ds as [|c ds IH]; intros fuel pos caps enough ok.
  - cbn [String.append String.length]. rewrite Nat.add_0_r.
    destruct fuel as [|fuel]; cbn [Re.star_loop]; [reflexivity|].
    rewrite stepE.
    destruct rest as [|c rest]; cbn [Re.accept]; [reflexivity|].
    now rewrite stop.
  - cbn [Str.forallb] in run. apply andb_true_iff in run.
    destruct run as [pc run].
    cbn [String.append String.length] in *.
    destruct fuel as [|fuel]; [lia|].
    cbn [Re.star_loop]. rewrite stepE. cbn [Re.accept]. rewrite pc.
    cbn [String.length].
    replace (String.length (ds ++ rest) <? S (String.length (ds ++ rest)))%nat
      with true by (symmetry; apply Nat.ltb_lt; lia).
    rewrite Nat.add_succ_r in *.
    rewrite (IH run fuel (S pos) caps) by (first [lia | exact ok]).
    change (S pos + String.length ds)%nat with (S (pos + String.length ds)).
    destruct ok as [a ->]. reflexivity.
Qed.

Lemma star_loop_class (p : ascii -> bool) (ds rest : string) (k : Re.cont A) :
  Str.forallb p ds = true ->
  match rest with String c _ => p c | EmptyString => false end = false ->
  forall fuel pos caps,
    (String.length (ds ++ rest) <= fuel)%nat ->
    (exists a, k (pos + String.length ds)%nat rest caps = Some a) ->
    Re.star_loop (Re.accept (Re.Chr p)) fuel pos (ds ++ rest) caps k
    = k (pos + String.length ds)%nat rest caps.
Proof. apply star_loop_run. reflexivity. Qed.

End RegexFacts.

Section BoundaryFacts.

Lemma substring_prefix (a b : string) :
  String.substring 0 (String.length a) (a ++ b) = a.
Proof.
  induction a as [|c a IH]; cbn [String.append String.length String.substring].
  - now destruct b.
  - now rewrite IH.
Qed.

(** A line that begins with "DEV ID " and a run of digits matches the
    boundary pattern, and its group is the whole run. *)
Lemma boundary_id_prefix (digits rest : string) :
  digits <> "" ->
  Str.forallb Char.is_digit digits = true ->
  Grammar.starts_with_digit rest = false ->
  Grammar.boundary_id ("DEV ID " ++ digits ++ rest) = Some digits.
Proof.
  intros nonempty run stop.
  destruct digits as [|c ds]; [now elim nonempty|].
  cbn [Str.forallb] in run. apply andb_true_iff in run. destruct run as [dc run].
  unfold Grammar.boundary_id, Re.re_match, EFSMI.dev_id_pattern.
  cbn [Re.accept]. rewrite accept_Lit.
  unfold Re.Plus, Re.digit. cbn [Re.accept String.append]. rewrite dc.
  rewrite (star_loop_run Char.is_digit);
    [| reflexivity | exact run | exact stop | lia | now eexists].
  cbn [option_map Re.group Nat.eqb]. f_equal.
  replace (S (0 + String.length "DEV ID ") + String.length ds
           - (0 + String.length "DEV ID "))%nat
    with (String.length (String c ds)) by (cbn [String.length]; lia).
  apply (substring_prefix (String c ds) rest).
Qed.

Lemma digit_run_split (s : string) :
  exists digits rest,
    s = digits ++ rest
    /\ Str.forallb Char.is_digit digits = true
    /\ Grammar.starts_with_digit rest = false.
Proof.
  induction s as [|c s (digits & rest & -> & run & stop)].
  - now exists "", "".
  - destruct (Char.is_digit c) eqn:dc.
    + exists (String c digits), rest. cbn [Str.forallb]. now rewrite dc.
    + exists "", (String c (digits ++ rest)). now cbn.
Qed.

(** The boundary lines are the lines that begin with "DEV ID " and a
    digit. *)
Lemma boundary_iff_prefix (line : string) :
  Grammar.is_boundary line = true
  <-> exists c s, line = "DEV ID " ++ String c s /\ Char.is_digit c = true.
Proof.
  split.
  - unfold Grammar.is_boundary, Grammar.boundary_id, Re.re_match,
      EFSMI.dev_id_pattern.
    destruct (Re.accept _ _ _ _ _) as [m|] eqn:E; [intros _ | discriminate].
    cbn [Re.accept] in E. apply accept_Lit_inv in E.
    destruct E as (s' & -> & E).
    unfold Re.Plus, Re.digit in E. cbn [Re.accept] in E.
    destruct s' as [|c s]; [discriminate E|].
    exists c, s. split; [reflexivity|].
    now destruct (Char.is_digit c).
  - intros (c & s & -> & dc).
    destruct (digit_run_split s) as (digits & rest & -> & run & stop).
    unfold Grammar.is_boundary.
    change ("DEV ID " ++ String c (digits ++ rest))
      with ("DEV ID " ++ String c digits ++ rest).
    rewrite (boundary_id_prefix (String c digits) rest);
      [reflexivity | discriminate | | exact stop].
    cbn [Str.forallb]. now rewrite dc.
Qed.

End BoundaryFacts.

Section DigitFacts.

Lemma digit_not_space (c : ascii) :
  Char.is_digit c = true -> Char.is_space c = false.
Proof.
  destruct c as [[] [] [] [] [] [] [] []]; intros H;
    first [reflexivity | discriminate H].
Qed.

Lemma digit_no_sign (c : ascii) (s : string) :
  Char.is_digit c = true ->
  Conv.split_sign (String c s) = (false, String c s).
Proof.
  destruct c as [[] [] [] [] [] [] [] []]; intros H;
    first [reflexivity | discriminate H].
Qed.

Lemma rstrip_digits (s : string) :
  Str.forallb Char.is_digit s = true -> Str.rstrip s = s.
Proof.
  induction s as [|c s IH]; cbn [Str.forallb Str.rstrip]; [reflexivity|].
  intros H. apply andb_true_iff in H. destruct H as [dc run].
  now rewrite (digit_not_space c dc), (IH run).
Qed.

Lemma strip_digits (s : string) :
  Str.forallb Char.is_digit s = true -> Str.strip s = s.
Proof.
  intros run. unfold Str.strip.
  destruct s as [|c s]; [reflexivity|].
  pose proof run as run'. cbn [Str.forallb] in run'.
  apply andb_true_iff in run'. destruct run' as [dc _].
  cbn [Str.lstrip]. rewrite (digit_not_space c dc).
  now apply rstrip_digits.
Qed.

Lemma int_digits_run (s : string) :
  Str.forallb Char.is_digit s = true ->
  forall acc count after,
    s <> "" \/ after = true ->
    Conv.int_digits acc count after s
    = Some (Grammar.decimal_from acc s, (count + String.length s)%nat).
Proof.
  induction s as [|c s IH]; cbn [Str.forallb]; intros run acc count after ok.
  - destruct ok as [ne | ->]; [now elim ne|].
    cbn [Conv.int_digits Grammar.decimal_from String.length].
    now rewrite Nat.add_0_r.
  - apply andb_true_iff in run. destruct run as [dc run].
    cbn [Conv.int_digits Grammar.decimal_from String.length]. rewrite dc.
    rewrite (IH run) by now right.
    now rewrite Nat.add_succ_r.
Qed.

(** [int] of a run of digits within the digit limit is its value. *)
Lemma py_int_digits (digits : string) :
  digits <> "" ->
  Str.forallb Char.is_digit digits = true ->
  (String.length digits <= Conv.int_max_str_digits)%nat ->
  Conv.py_int digits = Ok (Grammar.decimal digits).
Proof.
  intros nonempty run bound. unfold Conv.py_int.
  rewrite (strip_digits digits run).
  destruct digits as [|c ds]; [now elim nonempty|].
  pose proof run as run'. cbn [Str.forallb] in run'.
  apply andb_true_iff in run'. destruct run' as [dc _].
  rewrite (digit_no_sign c ds dc).
  rewrite (int_digits_run (String c ds) run 0%Z 0%nat false) by now left.
  replace (Conv.int_max_str_digits <? 0 + String.length (String c ds))%nat
    with false by (symmetry; apply Nat.ltb_ge; exact bound).
  reflexivity.
Qed.

End DigitFacts.

(** C9, as the code has it.  A line that begins with "DEV ID " followed at
    once by a run of decimal digits (at most the 4300 that [int] converts)
    is a device-boundary line, whatever follows the digits: it flushes the
    open accumulator, if there is one, into the output map under the id
    the accumulator holds, and opens a new accumulator that holds the
    value of the digits under "DEV_ID". *)
Theorem line_starting_with_dev_id_is_boundary :
  forall (digits rest : string) (devices : device_map) (cur : fields),
    digits <> "" ->
    Str.forallb Char.is_digit digits = true ->
    Grammar.starts_with_digit rest = false ->
    (String.length digits <= Conv.int_max_str_digits)%nat ->
    Grammar.is_boundary ("DEV ID " ++ digits ++ rest) = true
    /\ (cur = [] ->
        EFSMI.loop_body (devices, cur) ("DEV ID " ++ digits ++ rest)
        = Ok (devices, [("DEV_ID", VInt (Grammar.decimal digits))]))
    /\ (forall k : value,
          Dict.get String.eqb cur "DEV_ID" = Some k ->
          EFSMI.loop_body (devices, cur) ("DEV ID " ++ digits ++ rest)
          = Ok (Dict.set value_eqb devices k cur,
                [("DEV_ID", VInt (Grammar.decimal digits))])).
Proof.
  intros digits rest devices cur nonempty run stop bound.
  pose proof (boundary_id_prefix digits rest nonempty run stop) as b.
  pose proof (py_int_digits digits nonempty run bound) as conv.
  split; [unfold Grammar.is_boundary; now rewrite b|].
  split.
  - intros ->. rewrite (loop_body_boundary devices [] _ digits b).
    cbn [EFSMI.flush Dict.truthy bind]. now rewrite conv.
  - intros k held. rewrite (loop_body_boundary devices cur _ digits b).
    unfold EFSMI.flush, getitem.
    destruct cur as [|entry cur]; [discriminate held|].
    cbn [Dict.truthy]. rewrite held. cbn [bind]. now rewrite conv.
Qed.

Lemma line_starting_with_dev_id_is_boundary_witness :
  Grammar.is_boundary "DEV ID 12 (GCU)" = true
  /\ ([("DEV_ID", VInt 3); ("Dev_Name", VStr "GCU3")] = [] ->
      EFSMI.loop_body
        ([], [("DEV_ID", VInt 3); ("Dev_Name", VStr "GCU3")]) "DEV ID 12 (GCU)"
      = Ok ([], [("DEV_ID", VInt 12)]))
  /\ (forall k : value,
        Dict.get String.eqb [("DEV_ID", VInt 3); ("Dev_Name", VStr "GCU3")]
          "DEV_ID" = Some k ->
        EFSMI.loop_body
          ([], [("DEV_ID", VInt 3); ("Dev_Name", VStr "GCU3")]) "DEV ID 12 (GCU)"
        = Ok (Dict.set value_eqb [] k
                [("DEV_ID", VInt 3); ("Dev_Name", VStr "GCU3")],
              [("DEV_ID", VInt 12)])).
Proof.
  apply (line_starting_with_dev_id_is_boundary "12" " (GCU)" []
           [("DEV_ID", VInt 3); ("Dev_Name", VStr "GCU3")]);
    [discriminate | reflexivity | reflexivity
    | unfold Conv.int_max_str_digits; simpl; lia].
Defined.

(** C9 as stated fails: the line "  DEV ID 1" contains "DEV ID 1" and is
    no boundary, since the pattern is matched at the start of the line;
    the text has two such declarations and its map has one entry. *)
Lemma dev_id_inside_line_counterexample :
  Str.contains "DEV ID 1" "  DEV ID 1" = true
  /\ Grammar.is_boundary "  DEV ID 1" = false
  /\ EFSMI.parse_output (Grammar.unlines ["DEV ID 0"; "  DEV ID 1"])
     = Ok [(VInt 0, [("DEV_ID", VInt 0)])].
Proof. repeat split; vm_compute; reflexivity. Qed.

(** ** The parse as the blocks entered one after the other *)

Section BlockFacts.

Lemma bind_ok {A B : Type} (m : result A) (k : A -> result B) (b : B) :
  bind m k = Ok b -> exists a, m = Ok a /\ k a = Ok b.
Proof. destruct m as [a|e]; simpl; [now exists a | discriminate]. Qed.

Lemma set_lift (d : list (Z * fields)) (n : Z) (f : fields) :
  Dict.set value_eqb (Grammar.lift d) (VInt n) f
  = Grammar.lift (Dict.set Z.eqb d n f).
Proof.
  induction d as [|[k0 f0] d IH]; simpl; [reflexivity|].
  destruct (Z.eqb k0 n); simpl; [reflexivity | now rewrite IH].
Qed.

Lemma get_lift (d : list (Z * fields)) (n : Z) :
  Dict.get value_eqb (Grammar.lift d) (VInt n) = Dict.get Z.eqb d n.
Proof.
  induction d as [|[k0 f0] d IH]; simpl; [reflexivity|].
  now destruct (Z.eqb k0 n).
Qed.

Lemma keys_lift (d : list (Z * fields)) :
  Dict.keys (Grammar.lift d) = List.map VInt (Dict.keys d).
Proof.
  unfold Dict.keys, Grammar.lift. rewrite !map_map. reflexivity.
Qed.

Lemma get_truthy (cur : fields) (k : string) (v : value) :
  Dict.get String.eqb cur k = Some v -> Dict.truthy cur = true.
Proof. now destruct cur. Qed.

(** Flushing an accumulator that holds an integer id. *)
Lemma flush_lift (devices : list (Z * fields)) (cur : fields) (i : Z) :
  Dict.get String.eqb cur "DEV_ID" = Some (VInt i) ->
  EFSMI.flush (Grammar.lift devices) cur
  = Ok (Grammar.lift (Dict.set Z.eqb devices i cur)).
Proof.
  intros held. unfold EFSMI.flush, getitem.
  rewrite (get_truthy cur _ _ held), held. cbn [bind].
  now rewrite set_lift.
Qed.

(** A property line that does not use the reserved key leaves the id of
    the accumulator alone. *)
Lemma add_property_keeps_id (cur cur' : fields) (line : string) (v : value) :
  match Grammar.property_of line with
  | Some (key, _) => negb (String.eqb key "DEV_ID")
  | None => true
  end = true ->
  Dict.get String.eqb cur "DEV_ID" = Some v ->
  Grammar.add_property cur line = Ok cur' ->
  Dict.get String.eqb cur' "DEV_ID" = Some v.
Proof.
  unfold Grammar.add_property.
  destruct (Grammar.property_of line) as [[key text]|].
  - intros free held. destruct (EFSMI.coerce key text); simpl; [|discriminate].
    intros [= <-]. rewrite (get_set_other String.eqb String.eqb_spec); [exact held|].
    apply negb_true_iff in free. now apply String.eqb_neq in free.
  - now intros _ held [= <-].
Qed.

Lemma finish_open (lines : list string) :
  forall (devices : list (Z * fields)) (cur f : fields) (i : Z)
         (bs : list (Z * fields)),
    Grammar.reserved_key_unused lines = true ->
    Dict.get String.eqb cur "DEV_ID" = Some (VInt i) ->
    Grammar.add_properties cur (Grammar.until_boundary lines) = Ok f ->
    Grammar.blocks lines = Ok bs ->
    (st <- EFSMI.loop (Grammar.lift devices, cur) lines ;;
     EFSMI.flush (fst st) (snd st))
    = Ok (Grammar.lift (Grammar.collect_from (Dict.set Z.eqb devices i f) bs)).
Proof.
  induction lines as [|l lines IH]; intros devices cur f i bs free held props blk.
  - cbn in props, blk. injection props as <-. injection blk as <-.
    cbn [EFSMI.loop bind fst snd Grammar.collect_from fold_left].
    now apply flush_lift.
  - cbn [Grammar.reserved_key_unused forallb] in free.
    apply andb_true_iff in free. destruct free as [free_l free].
    unfold Grammar.blocks in blk. cbn [Grammar.segments Grammar.until_boundary] in *.
    unfold Grammar.is_boundary in props.
    destruct (Grammar.boundary_id l) as [digits|] eqn:b.
    + injection props as <-.
      cbn [Grammar.blocks_of] in blk.
      apply bind_ok in blk. destruct blk as ([n f'] & blk1 & blk).
      apply bind_ok in blk. destruct blk as (bs' & blk2 & blk).
      injection blk as <-.
      unfold Grammar.block in blk1. cbn [fst snd] in blk1.
      apply bind_ok in blk1. destruct blk1 as (n0 & conv & blk1).
      apply bind_ok in blk1. destruct blk1 as (f0 & props' & blk1).
      injection blk1 as <- <-.
      cbn [EFSMI.loop]. rewrite (loop_body_boundary _ _ l digits b).
      rewrite (flush_lift devices cur i held). cbn [bind]. rewrite conv. cbn [bind].
      apply (IH (Dict.set Z.eqb devices i cur) [("DEV_ID", VInt n0)] f0 n0 bs');
        [exact free | reflexivity | exact props' | exact blk2].
    + apply bind_ok in props. destruct props as (cur' & step & props).
      assert (nb : Grammar.is_boundary l = false)
        by (unfold Grammar.is_boundary; now rewrite b).
      cbn [EFSMI.loop].
      rewrite (loop_body_open _ cur l nb (get_truthy cur _ _ held)), step.
      cbn [bind].
      apply (IH devices cur' f i bs);
        [exact free | | exact props | exact blk].
      exact (add_property_keeps_id cur cur' l _ free_l held step).
Qed.

Lemma finish_closed (lines : list string) :
  forall (devices bs : list (Z * fields)),
    Grammar.reserved_key_unused lines = true ->
    Grammar.blocks lines = Ok bs ->
    (st <- EFSMI.loop (Grammar.lift devices, []) lines ;;
     EFSMI.flush (fst st) (snd st))
    = Ok (Grammar.lift (Grammar.collect_from devices bs)).
Proof.
  induction lines as [|l lines IH]; intros devices bs free blk.
  - cbn in blk. injection blk as <-. reflexivity.
  - cbn [Grammar.reserved_key_unused forallb] in free.
    apply andb_true_iff in free. destruct free as [free_l free].
    unfold Grammar.blocks in blk. cbn [Grammar.segments] in blk.
    destruct (Grammar.boundary_id l) as [digits|] eqn:b.
    + cbn [Grammar.blocks_of] in blk.
      apply bind_ok in blk. destruct blk as ([n f'] & blk1 & blk).
      apply bind_ok in blk. destruct blk as (bs' & blk2 & blk).
      injection blk as <-.
      unfold Grammar.block in blk1. cbn [fst snd] in blk1.
      apply bind_ok in blk1. destruct blk1 as (n0 & conv & blk1).
      apply bind_ok in blk1. destruct blk1 as (f0 & props' & blk1).
      injection blk1 as <- <-.
      cbn [EFSMI.loop]. rewrite (loop_body_boundary _ _ l digits b).
      cbn [EFSMI.flush Dict.truthy bind]. rewrite conv. cbn [bind].
      apply (finish_open lines devices [("DEV_ID", VInt n0)] f0 n0 bs');
        [exact free | reflexivity | exact props' | exact blk2].
    + assert (nb : Grammar.is_boundary l = false)
        by (unfold Grammar.is_boundary; now rewrite b).
      cbn [EFSMI.loop]. rewrite (loop_body_closed _ l nb). cbn [bind].
      now apply IH.
Qed.

(** The single pass over the lines computes what the blocks, read one
    by one and assigned in order, give. *)
Lemma parse_lines_blocks (lines : list string) (bs : list (Z * fields)) :
  Grammar.reserved_key_unused lines = true ->
  Grammar.blocks lines = Ok bs ->
  EFSMI.parse_lines lines = Ok (Grammar.lift (Grammar.collect bs)).
Proof.
  intros free blk. exact (finish_closed lines [] bs free blk).
Qed.

Lemma blocks_of_length (segs : list (string * list string))
    (bs : list (Z * fields)) :
  Grammar.blocks_of segs = Ok bs -> List.length bs = List.length segs.
Proof.
  revert bs. induction segs as [|seg segs IH]; intros bs; cbn [Grammar.blocks_of].
  - now intros [= <-].
  - intros H. apply bind_ok in H. destruct H as (b & _ & H).
    apply bind_ok in H. destruct H as (bs' & H' & H).
    injection H as <-. simpl. now rewrite (IH bs' H').
Qed.

Lemma segments_length (lines : list string) :
  List.length (Grammar.segments lines)
  = List.length (List.filter Grammar.is_boundary lines).
Proof.
  induction lines as [|l lines IH]; simpl; [reflexivity|].
  unfold Grammar.is_boundary.
  destruct (Grammar.boundary_id l); simpl; now rewrite IH.
Qed.

End BlockFacts.

Section AccumulatorFacts.

Lemma loop_body_has_id (st st' : EFSMI.state) (line : string) :
  EFSMI.loop_body st line = Ok st' -> Grammar.has_id (snd st) -> Grammar.has_id (snd st').
Proof.
  destruct st as [devices cur]. cbn [snd]. intros step inv.
  destruct (Grammar.boundary_id line) as [digits|] eqn:b.
  - rewrite (loop_body_boundary devices cur line digits b) in step.
    destruct (EFSMI.flush devices cur); simpl in step; [|discriminate].
    destruct (Conv.py_int digits); simpl in step; [|discriminate].
    injection step as <-. right. now eexists.
  - assert (nb : Grammar.is_boundary line = false)
      by (unfold Grammar.is_boundary; now rewrite b).
    destruct inv as [->|[k held]].
    + pose proof (eq_trans (eq_sym (loop_body_closed devices line nb)) step) as E.
      injection E as <-. now left.
    + rewrite (loop_body_open devices cur line nb (get_truthy cur _ _ held)) in step.
      unfold Grammar.add_property in step.
      destruct (Grammar.property_of line) as [[key text]|];
        [| injection step as <-; right; now exists k].
      destruct (EFSMI.coerce key text) as [v|]; simpl in step; [|discriminate].
      injection step as <-. right. cbn [snd].
      destruct (String.eqb_spec key "DEV_ID") as [->|ne].
      * exists v. apply (get_set_same String.eqb String.eqb_spec).
      * exists k. now rewrite (get_set_other String.eqb String.eqb_spec).
Qed.

(** In every state the loop reaches, the accumulator is closed or holds
    an id under "DEV_ID". *)
Lemma loop_has_id (lines : list string) :
  forall st st',
    EFSMI.loop st lines = Ok st' -> Grammar.has_id (snd st) -> Grammar.has_id (snd st').
Proof.
  induction lines as [|l lines IH]; intros st st'; cbn [EFSMI.loop].
  - now intros [= <-].
  - destruct (EFSMI.loop_body st l) as [st1|] eqn:step; cbn [bind]; [|discriminate].
    intros run inv. apply (IH st1 st' run).
    exact (loop_body_has_id st st1 l step inv).
Qed.

End AccumulatorFacts.

Section CollectFacts.

Lemma collect_from_get (bs : list (Z * fields)) (id : Z) :
  forall (d : list (Z * fields)) (acc : option fields),
    Dict.get Z.eqb d id = acc ->
    Dict.get Z.eqb (Grammar.collect_from d bs) id
    = List.fold_left
        (fun acc b => if Z.eqb (fst b) id then Some (snd b) else acc) bs acc.
Proof.
  induction bs as [|[n f] bs IH]; intros d acc H; cbn [Grammar.collect_from fold_left].
  - exact H.
  - apply IH. cbn [fst snd]. destruct (Z.eqb_spec n id) as [->|ne].
    + apply (get_set_same Z.eqb Z.eqb_spec).
    + now rewrite (get_set_other Z.eqb Z.eqb_spec) by exact ne.
Qed.

Lemma collect_get (bs : list (Z * fields)) (id : Z) :
  Dict.get Z.eqb (Grammar.collect bs) id = Grammar.last_block id bs.
Proof. now apply collect_from_get. Qed.

Lemma collect_from_keys (bs : list (Z * fields)) :
  forall (d : list (Z * fields)) (k : Z),
    In k (Dict.keys (Grammar.collect_from d bs))
    <-> In k (Dict.keys d) \/ In k (List.map fst bs).
Proof.
  induction bs as [|[n f] bs IH]; intros d k.
  - simpl. tauto.
  - change (Grammar.collect_from d ((n, f) :: bs))
      with (Grammar.collect_from (Dict.set Z.eqb d n f) bs).
    rewrite IH, (in_keys_set Z.eqb Z.eqb_spec). simpl. intuition.
Qed.

Lemma collect_from_NoDup (bs : list (Z * fields)) :
  forall d : list (Z * fields),
    NoDup (Dict.keys d) -> NoDup (Dict.keys (Grammar.collect_from d bs)).
Proof.
  induction bs as [|[n f] bs IH]; intros d nodup; cbn [Grammar.collect_from fold_left].
  - exact nodup.
  - apply IH. now apply (NoDup_keys_set Z.eqb Z.eqb_spec).
Qed.

(** Blocks of pairwise different, fresh ids are appended as they come. *)
Lemma collect_from_fresh (bs : list (Z * fields)) :
  forall d : list (Z * fields),
    NoDup (List.map fst bs) ->
    (forall k, In k (List.map fst bs) -> ~ In k (Dict.keys d)) ->
    Grammar.collect_from d bs = (d ++ bs)%list.
Proof.
  induction bs as [|[n f] bs IH]; intros d nodup fresh.
  - cbn [Grammar.collect_from fold_left]. now rewrite app_nil_r.
  - change (Grammar.collect_from d ((n, f) :: bs))
      with (Grammar.collect_from (Dict.set Z.eqb d n f) bs).
    cbn [List.map fst] in nodup, fresh. inversion nodup as [|? ? notin nodup']; subst.
    rewrite (set_fresh Z.eqb Z.eqb_spec) by (apply fresh; now left).
    rewrite IH; [now rewrite <- app_assoc | exact nodup' |].
    intros k Hk. unfold Dict.keys. rewrite map_app, in_app_iff. simpl.
    intros [old|[<-|[]]]; [| contradiction].
    apply (fresh k); [now right | exact old].
Qed.

Lemma NoDup_map_VInt (l : list Z) : NoDup l -> NoDup (List.map VInt l).
Proof.
  induction 1 as [|x l notin nodup IH]; simpl; constructor; [|exact IH].
  rewrite in_map_iff. intros (y & [= ->] & Hy). now apply notin.
Qed.

End CollectFacts.

Section DeclaredFacts.

Lemma strip_prefix_app (p s : string) :
  Grammar.strip_prefix p (p ++ s) = Some s.
Proof.
  induction p as [|a p IH]; cbn [Grammar.strip_prefix String.append];
    [reflexivity|].
  now rewrite Ascii.eqb_refl.
Qed.

Lemma strip_prefix_some (p : string) :
  forall s r, Grammar.strip_prefix p s = Some r -> s = p ++ r.
Proof.
  induction p as [|a p IH]; intros s r; cbn [Grammar.strip_prefix].
  - now intros [= ->].
  - destruct s as [|b s]; [discriminate|].
    destruct (Ascii.eqb_spec a b) as [<-|]; [|discriminate].
    intros H. cbn [String.append]. now rewrite (IH s r H).
Qed.

Lemma leading_digits_run (s : string) :
  Str.forallb Char.is_digit (Grammar.leading_digits s) = true.
Proof.
  induction s as [|c s IH]; cbn [Grammar.leading_digits]; [reflexivity|].
  destruct (Char.is_digit c) eqn:dc; [|reflexivity].
  cbn [Str.forallb]. now rewrite dc, IH.
Qed.

Lemma leading_digits_split (s : string) :
  exists rest,
    s = Grammar.leading_digits s ++ rest
    /\ Grammar.starts_with_digit rest = false.
Proof.
  induction s as [|c s (rest & split & stop)]; cbn [Grammar.leading_digits].
  - now exists "".
  - destruct (Char.is_digit c) eqn:dc.
    + exists rest. cbn [String.append]. now rewrite <- split.
    + exists (String c s). now split.
Qed.

(** The boundary pattern of the code finds the declared id that the text
    shows, and no other. *)
Lemma boundary_id_syntactic (line : string) :
  Grammar.boundary_id line = Grammar.dev_id_digits line.
Proof.
  unfold Grammar.dev_id_digits.
  destruct (Grammar.strip_prefix "DEV ID " line) as [r|] eqn:P.
  - apply strip_prefix_some in P. subst line.
    destruct (leading_digits_split r) as (rest & split & stop).
    pose proof (leading_digits_run r) as run.
    destruct (Grammar.leading_digits r) as [|a ds] eqn:L.
    + destruct (Grammar.boundary_id ("DEV ID " ++ r)) as [digits|] eqn:B;
        [exfalso | reflexivity].
      assert (b : Grammar.is_boundary ("DEV ID " ++ r) = true)
        by (unfold Grammar.is_boundary; now rewrite B).
      apply boundary_iff_prefix in b. destruct b as (c & s & same & dc).
      cbn [String.append] in same. injection same as ->.
      cbn [Grammar.leading_digits] in L. rewrite dc in L. discriminate L.
    + rewrite split.
      apply (boundary_id_prefix (String a ds) rest);
        [discriminate | exact run | exact stop].
  - destruct (Grammar.boundary_id line) as [digits|] eqn:B; [exfalso | reflexivity].
    assert (b : Grammar.is_boundary line = true)
      by (unfold Grammar.is_boundary; now rewrite B).
    apply boundary_iff_prefix in b. destruct b as (c & s & -> & dc).
    rewrite strip_prefix_app in P. discriminate P.
Qed.

Lemma dev_id_digits_run (line digits : string) :
  Grammar.dev_id_digits line = Some digits ->
  digits <> "" /\ Str.forallb Char.is_digit digits = true.
Proof.
  unfold Grammar.dev_id_digits.
  destruct (Grammar.strip_prefix "DEV ID " line) as [r|]; [|discriminate].
  pose proof (leading_digits_run r) as run.
  destruct (Grammar.leading_digits r) as [|a ds]; [discriminate|].
  intros [= <-]. split; [discriminate | exact run].
Qed.

(** When [int] converts a run of digits, it gives the value of the run. *)
Lemma py_int_digits_value (digits : string) (n : Z) :
  digits <> "" ->
  Str.forallb Char.is_digit digits = true ->
  Conv.py_int digits = Ok n ->
  n = Grammar.decimal digits.
Proof.
  intros nonempty run. unfold Conv.py_int.
  rewrite (strip_digits digits run).
  destruct digits as [|c ds]; [now elim nonempty|].
  pose proof run as run'. cbn [Str.forallb] in run'.
  apply andb_true_iff in run'. destruct run' as [dc _].
  rewrite (digit_no_sign c ds dc).
  rewrite (int_digits_run (String c ds) run 0%Z 0%nat false) by now left.
  destruct (_ <? _)%nat; [discriminate|].
  now intros [= <-].
Qed.

(** The ids of the blocks the code reads are the ids the text declares. *)
Lemma blocks_declared_ids (lines : list string) :
  forall bs : list (Z * fields),
    Grammar.blocks lines = Ok bs ->
    List.map fst bs = Grammar.declared_ids lines.
Proof.
  unfold Grammar.blocks.
  induction lines as [|l lines IH]; intros bs;
    cbn [Grammar.segments Grammar.declared_ids].
  - now intros [= <-].
  - rewrite <- (boundary_id_syntactic l).
    destruct (Grammar.boundary_id l) as [digits|] eqn:B; [|apply IH].
    cbn [Grammar.blocks_of]. intros H.
    apply bind_ok in H. destruct H as ([n f] & blk & H).
    apply bind_ok in H. destruct H as (bs' & rest & [= <-]).
    unfold Grammar.block in blk. cbn [fst snd] in blk.
    apply bind_ok in blk. destruct blk as (n0 & conv & blk).
    apply bind_ok in blk. destruct blk as (f0 & _ & [= <- <-]).
    rewrite boundary_id_syntactic in B.
    destruct (dev_id_digits_run l digits B) as [nonempty run].
    cbn [List.map fst].
    rewrite (py_int_digits_value digits n0 nonempty run conv).
    f_equal. now apply IH.
Qed.

End DeclaredFacts.

(** C4, as the code has it.  Take a text whose blocks all convert
    ([Grammar.blocks] returns them) and in which no property line uses
    the reserved key "DEV_ID".  Its blocks begin at the lines that begin
    with "DEV ID " and a digit, and the id of a block is the value of the
    whole run of digits there.  If these ids are pairwise different, the
    parser returns a map with exactly one entry per block, as many as
    there are such lines, in the order of the text, each keyed by the
    integer its block declares and holding the fields of that block. *)
Theorem distinct_ids_one_entry_per_block :
  forall (output : string) (bs : list (Z * fields)),
    Grammar.blocks (Str.splitlines output) = Ok bs ->
    Grammar.reserved_key_unused (Str.splitlines output) = true ->
    NoDup (List.map fst bs) ->
    exists m : device_map,
      EFSMI.parse_output output = Ok m
      /\ List.length m = List.length bs
      /\ List.length m
         = List.length (List.filter Grammar.is_boundary (Str.splitlines output))
      /\ Dict.keys m = List.map (fun b => VInt (fst b)) bs
      /\ m = Grammar.lift bs
      /\ List.map fst bs = Grammar.declared_ids (Str.splitlines output)
      /\ Dict.keys m
         = List.map VInt (Grammar.declared_ids (Str.splitlines output))
      /\ List.length m
         = List.length (Grammar.declared_ids (Str.splitlines output)).
Proof.
  intros output bs blk free nodup.
  exists (Grammar.lift bs).
  assert (parse : EFSMI.parse_output output = Ok (Grammar.lift bs)).
  { unfold EFSMI.parse_output.
    rewrite (parse_lines_blocks _ bs free blk). unfold Grammar.collect.
    rewrite (collect_from_fresh bs [] nodup) by (intros k _ []).
    reflexivity. }
  split; [exact parse|].
  assert (len : List.length (Grammar.lift bs) = List.length bs)
    by (unfold Grammar.lift; apply length_map).
  pose proof (blocks_declared_ids _ bs blk) as ids.
  assert (keys : Dict.keys (Grammar.lift bs) = List.map (fun b => VInt (fst b)) bs)
    by (unfold Dict.keys, Grammar.lift; now rewrite map_map).
  split; [exact len|]. split.
  { rewrite len, (blocks_of_length _ bs blk). apply segments_length. }
  split; [exact keys|]. split; [reflexivity|]. split; [exact ids|]. split.
  - rewrite keys, <- ids. now rewrite map_map.
  - rewrite len, <- ids. now rewrite length_map.
Qed.

Lemma distinct_ids_one_entry_per_block_witness :
  exists m : device_map,
    EFSMI.parse_output
      (Grammar.unlines ["-- report --"; "DEV ID 3"; "  Dev Name : GCU3";
                        "DEV ID 12 (slot 1)"; "  Total Size : 2 MiB"])
    = Ok m
    /\ List.length m = 2%nat
    /\ List.length m = 2%nat
    /\ Dict.keys m = [VInt 3; VInt 12]
    /\ m = [(VInt 3, [("DEV_ID", VInt 3); ("Dev_Name", VStr "GCU3")]);
            (VInt 12, [("DEV_ID", VInt 12); ("Total_Size", VInt 2097152)])]
    /\ [3%Z; 12%Z]
       = Grammar.declared_ids
           ["-- report --"; "DEV ID 3"; "  Dev Name : GCU3";
            "DEV ID 12 (slot 1)"; "  Total Size : 2 MiB"]
    /\ Dict.keys m = [VInt 3; VInt 12]
    /\ List.length m = 2%nat.
Proof.
  apply (distinct_ids_one_entry_per_block
           (Grammar.unlines ["-- report --"; "DEV ID 3"; "  Dev Name : GCU3";
                             "DEV ID 12 (slot 1)"; "  Total Size : 2 MiB"])
           [(3%Z, [("DEV_ID", VInt 3); ("Dev_Name", VStr "GCU3")]);
            (12%Z, [("DEV_ID", VInt 12); ("Total_Size", VInt 2097152)])]).
  - vm_compute. reflexivity.
  - vm_compute. reflexivity.
  - simpl. repeat constructor; simpl; intuition discriminate.
Defined.

(** C4 as stated fails: a property line "DEV ID : x" replaces the id the
    accumulator holds.  The text below has two blocks, which declare the
    different ids 0 and 1 and convert; its map has one entry, filed under
    the text "x" and not under a declared integer. *)
Lemma distinct_ids_reserved_key_counterexample :
  Grammar.declared_ids ["DEV ID 0"; "DEV ID : x"; "DEV ID 1"; "DEV ID : x"]
  = [0%Z; 1%Z]
  /\ Grammar.blocks ["DEV ID 0"; "DEV ID : x"; "DEV ID 1"; "DEV ID : x"]
     = Ok [(0%Z, [("DEV_ID", VStr "x")]); (1%Z, [("DEV_ID", VStr "x")])]
  /\ EFSMI.parse_output
       (Grammar.unlines ["DEV ID 0"; "DEV ID : x"; "DEV ID 1"; "DEV ID : x"])
     = Ok [(VStr "x", [("DEV_ID", VStr "x")])].
Proof. repeat split; vm_compute; reflexivity. Qed.

(** C10, as the code has it.  Take a text whose blocks all convert and in
    which no property line uses the reserved key "DEV_ID".  The map the
    parser returns has pairwise different keys, which are exactly the
    declared ids, and the entry of an id holds the fields of the last
    block that declares it. *)
Theorem repeated_id_keeps_last_block :
  forall (output : string) (bs : list (Z * fields)),
    Grammar.blocks (Str.splitlines output) = Ok bs ->
    Grammar.reserved_key_unused (Str.splitlines output) = true ->
    exists m : device_map,
      EFSMI.parse_output output = Ok m
      /\ NoDup (Dict.keys m)
      /\ (forall k : value,
            In k (Dict.keys m) <-> exists id, In id (List.map fst bs) /\ k = VInt id)
      /\ (forall id : Z,
            In id (List.map fst bs) ->
            exists f, Grammar.last_block id bs = Some f
                      /\ Dict.get value_eqb m (VInt id) = Some f).
Proof.
  intros output bs blk free.
  exists (Grammar.lift (Grammar.collect bs)).
  split; [unfold EFSMI.parse_output; now apply parse_lines_blocks|].
  assert (keys : forall id, In id (Dict.keys (Grammar.collect bs))
                            <-> In id (List.map fst bs)).
  { intros id. unfold Grammar.collect. rewrite collect_from_keys. simpl. tauto. }
  split; [|split].
  - rewrite keys_lift. apply NoDup_map_VInt, collect_from_NoDup. constructor.
  - intros k. rewrite keys_lift, in_map_iff. split.
    + intros (id & <- & Hid). exists id. split; [now apply keys | reflexivity].
    + intros (id & Hid & ->). exists id. split; [reflexivity | now apply keys].
  - intros id Hid. rewrite get_lift, collect_get.
    apply keys in Hid.
    destruct (Grammar.last_block id bs) as [f|] eqn:E; [now exists f|].
    exfalso. rewrite <- collect_get in E.
    apply (get_none_iff Z.eqb Z.eqb_spec) in E. now apply E.
Qed.

Lemma repeated_id_keeps_last_block_witness :
  exists m : device_map,
    EFSMI.parse_output
      (Grammar.unlines ["DEV ID 0"; "  Dev Name : old"; "DEV ID 1";
                        "DEV ID 0"; "  Dev UUID : new"])
    = Ok m
    /\ NoDup (Dict.keys m)
    /\ (forall k : value,
          In k (Dict.keys m) <-> exists id, In id [0%Z; 1%Z; 0%Z] /\ k = VInt id)
    /\ (forall id : Z,
          In id [0%Z; 1%Z; 0%Z] ->
          exists f,
            Grammar.last_block id
              [(0%Z, [("DEV_ID", VInt 0); ("Dev_Name", VStr "old")]);
               (1%Z, [("DEV_ID", VInt 1)]);
               (0%Z, [("DEV_ID", VInt 0); ("Dev_UUID", VStr "new")])] = Some f
            /\ Dict.get value_eqb m (VInt id) = Some f).
Proof.
  apply (repeated_id_keeps_last_block
           (Grammar.unlines ["DEV ID 0"; "  Dev Name : old"; "DEV ID 1";
                             "DEV ID 0"; "  Dev UUID : new"])
           [(0%Z, [("DEV_ID", VInt 0); ("Dev_Name", VStr "old")]);
            (1%Z, [("DEV_ID", VInt 1)]);
            (0%Z, [("DEV_ID", VInt 0); ("Dev_UUID", VStr "new")])]);
    vm_compute; reflexivity.
Defined.

(** C10 as stated fails: a property line "DEV ID : x" replaces the id
    the accumulator holds.  The text below declares the id 0 twice; its
    map has two entries, the entry of 0 holds the fields of the first
    block, and the last block sits under the key "x". *)
Lemma repeated_id_counterexample :
  List.map fst
    (Grammar.segments ["DEV ID 0"; "A : 1"; "DEV ID 0"; "DEV ID : x"])
  = ["0"; "0"]
  /\ EFSMI.parse_output
       (Grammar.unlines ["DEV ID 0"; "A : 1"; "DEV ID 0"; "DEV ID : x"])
     = Ok [(VInt 0, [("DEV_ID", VInt 0); ("A", VStr "1")]);
           (VStr "x", [("DEV_ID", VStr "x")])].
Proof. split; vm_compute; reflexivity. Qed.

(** * Further properties of the detector *)

(** ** The command runner *)

Section RunnerMore.

Lemma lower_append (a b : string) :
  Str.lower (a ++ b) = Str.lower a ++ Str.lower b.
Proof.
  unfold Str.lower. induction a as [|c a IH]; simpl; [reflexivity|].
  now rewrite IH.
Qed.

Lemma reraise_message {A : Type} (command : list string)
    (res : option CompletedProcess) (detail : string) :
  exists rest,
    @EFSMI.reraise A command res detail
    = Raise (Exception
               ("Failed to execute " ++ Str.of_list command ++ ": " ++ rest)).
Proof.
  unfold EFSMI.reraise. destruct res as [r|].
  - exists (detail ++ ", stdout: " ++ Str.of_option (stdout r)
            ++ ", stderr: " ++ Str.of_option (stderr r)).
    do 2 f_equal. now rewrite !append_assoc.
  - now exists detail.
Qed.

End RunnerMore.

(** X1.  The runner returns a text exactly when the process ran to an
    exit status 0 and printed a non-empty stdout without the no-devices
    marker; the text is that stdout, unchanged. *)
Theorem run_command_returns_output_iff :
  forall (run : subprocess_run) (command : list string) (output : string),
    EFSMI._run_command run command = Ok (Some output)
    <-> exists res,
          run command = Completed res
          /\ stdout res = Some output
          /\ returncode res = 0%Z
          /\ output <> ""
          /\ Str.contains "no devices" (Str.lower output) = false.
Proof.
  intros run command output. unfold EFSMI._run_command. split.
  - destruct (run command) as [res|e] eqn:ran;
      [| destruct (reraise_message (A := option string) command None e) as [r ->];
         discriminate].
    destruct (stdout res) as [out|] eqn:captured; [|discriminate].
    destruct (Str.contains "no devices" (Str.lower out)) eqn:marker; [discriminate|].
    destruct (Z.eqb_spec (returncode res) 0) as [code|code]; cbn [negb];
      [| unfold EFSMI.reraise; discriminate].
    destruct (String.eqb_spec out "") as [empty|nonempty];
      [unfold EFSMI.reraise; discriminate|].
    intros [= <-]. exists res. repeat split; assumption.
  - intros (res & -> & -> & code & nonempty & ->).
    rewrite code. cbn [Z.eqb negb].
    now destruct (String.eqb_spec output "").
Qed.

(** X2.  Whatever makes the runner fail, the error it raises is an
    [Exception] whose message begins with "Failed to execute ", the
    command as Python prints a list, and a colon. *)
Theorem run_command_error_names_command :
  forall (run : subprocess_run) (command : list string) (e : exn),
    EFSMI._run_command run command = Raise e ->
    exists detail : string,
      e = Exception
            ("Failed to execute " ++ Str.of_list command ++ ": " ++ detail).
Proof.
  intros run command e. unfold EFSMI._run_command.
  destruct (run command) as [res|msg].
  - destruct (stdout res) as [out|]; [|discriminate].
    destruct (Str.contains "no devices" (Str.lower out)); [discriminate|].
    destruct (negb (returncode res =? 0)%Z).
    + destruct (reraise_message (A := option string) command (Some res)
                  ("Unexpected return code: " ++ Str.of_Z (returncode res)))
        as [rest ->].
      intros [= <-]. now exists rest.
    + destruct (String.eqb out ""); [|discriminate].
      destruct (reraise_message (A := option string) command (Some res)
                  ("Output is empty, return code: " ++ Str.of_Z (returncode res)))
        as [rest ->].
      intros [= <-]. now exists rest.
  - destruct (reraise_message (A := option string) command None msg) as [rest ->].
    intros [= <-]. now exists rest.
Qed.

Lemma run_command_error_names_command_witness :
  exists detail : string,
    Exception
      "Failed to execute ['efsmi', '-q', '-d', 'DEVICE']: Unexpected return code: 1, stdout: boom, stderr: bad flag"
    = Exception
        ("Failed to execute " ++ Str.of_list ["efsmi"; "-q"; "-d"; "DEVICE"]
         ++ ": " ++ detail).
Proof.
  apply (run_command_error_names_command Tool.failing_run
           ["efsmi"; "-q"; "-d"; "DEVICE"]).
  reflexivity.
Defined.

(** X3.  A process that exits with status 0 and prints nothing makes the
    runner raise "Failed to execute <command>: Output is empty, return
    code: 0, stdout: , stderr: <stderr>". *)
Theorem run_command_empty_output :
  forall (run : subprocess_run) (command : list string) (res : CompletedProcess),
    run command = Completed res ->
    stdout res = Some "" ->
    returncode res = 0%Z ->
    EFSMI._run_command run command
    = Raise (Exception
               ("Failed to execute " ++ Str.of_list command
                ++ ": Output is empty, return code: 0, stdout: , stderr: "
                ++ Str.of_option (stderr res))).
Proof.
  intros run command res ran captured code.
  unfold EFSMI._run_command, EFSMI.reraise.
  rewrite ran, captured, code. cbn [Str.lower Str.map Str.contains String.prefix
    Z.eqb negb String.eqb Str.of_option].
  do 2 f_equal. rewrite !append_assoc. reflexivity.
Qed.

Lemma run_command_empty_output_witness :
  EFSMI._run_command Report.silent_run ["efsmi"; "-q"; "-d"; "DEVICE"]
  = Raise (Exception
             ("Failed to execute " ++ Str.of_list ["efsmi"; "-q"; "-d"; "DEVICE"]
              ++ ": Output is empty, return code: 0, stdout: , stderr: "
              ++ Str.of_option (Some ""))).
Proof.
  apply (run_command_empty_output Report.silent_run
           ["efsmi"; "-q"; "-d"; "DEVICE"] (Tool.report 0 ""));
    reflexivity.
Defined.

(** X4.  The no-devices marker is found anywhere in stdout and in any
    mix of upper and lower case; the runner then returns no data,
    whatever the exit status and whatever else stdout holds. *)
Theorem marker_found_in_any_case :
  forall (run : subprocess_run) (command : list string) (res : CompletedProcess)
         (before marker after : string),
    run command = Completed res ->
    stdout res = Some (before ++ marker ++ after) ->
    Str.lower marker = "no devices" ->
    EFSMI._run_command run command = Ok None.
Proof.
  intros run command res before marker after ran captured low.
  apply (run_command_no_devices run command res _ ran captured).
  rewrite !lower_append, low.
  apply contains_skip, contains_here.
Qed.

Lemma marker_found_in_any_case_witness :
  EFSMI._run_command
    (Tool.efsmi (Tool.report 3 "DEV ID 0: No Devices attached")
                (Tool.report 0 "") (Tool.report 0 "") (Tool.report 0 ""))
    ["efsmi"; "-q"; "-d"; "DEVICE"]
  = Ok None.
Proof.
  apply (marker_found_in_any_case _ _
           (Tool.report 3 "DEV ID 0: No Devices attached")
           "DEV ID 0: " "No Devices" " attached");
    reflexivity.
Defined.

(** ** The loop over the lines, line by line *)

Section LineFacts.

Lemma property_of_none (line : string) :
  Grammar.property_of line = None ->
  Re.re_match EFSMI.property_pattern line = None.
Proof.
  unfold Grammar.property_of.
  now destruct (Re.re_match EFSMI.property_pattern line).
Qed.

Lemma loop_body_unmatched (st : EFSMI.state) (line : string) :
  Pred.unmatched line = true -> EFSMI.loop_body st line = Ok st.
Proof.
  unfold Pred.unmatched. intros H. apply andb_true_iff in H.
  destruct H as [nb np]. apply negb_true_iff in nb.
  destruct (Grammar.property_of line) eqn:prop; [discriminate np|].
  destruct st as [devices cur]. unfold EFSMI.loop_body.
  now rewrite (is_boundary_false line nb), (property_of_none line prop).
Qed.

Lemma float_key_not_size (key : string) :
  Grammar.is_float_key key = true -> Str.endswith "_Size" key = false.
Proof.
  unfold Grammar.is_float_key. intros H. apply orb_true_iff in H.
  destruct H as [H|H]; apply String.eqb_eq in H; subst key; reflexivity.
Qed.

Lemma coerce_float (key text tok : string) (toks : list string) (x : pyfloat) :
  Grammar.is_float_key key = true ->
  Str.split text = tok :: toks ->
  Conv.py_float tok = Ok x ->
  EFSMI.coerce key text = Ok (VFloat x).
Proof.
  intros kind tokens conv. pose proof (float_key_not_size key kind) as ns.
  unfold Grammar.is_float_key in kind. apply orb_true_iff in kind.
  unfold EFSMI.coerce. rewrite ns. cbn [bind].
  destruct kind as [kind|kind]; apply String.eqb_eq in kind; subst key;
    unfold EFSMI.first_token;
    cbn [String.eqb Ascii.eqb Bool.eqb bind];
    rewrite tokens; cbn [first bind]; rewrite conv; reflexivity.
Qed.

(** Within a block every line adds to the accumulator alone. *)
Lemma loop_within_block (props : list string) :
  forall (devices : device_map) (cur : fields),
    Dict.truthy cur = true ->
    forallb (fun l => negb (Grammar.is_boundary l)) props = true ->
    EFSMI.loop (devices, cur) props
    = (cur' <- Grammar.add_properties cur props ;; Ok (devices, cur')).
Proof.
  induction props as [|l props IH]; intros devices cur opened nb;
    cbn [EFSMI.loop Grammar.add_properties forallb] in *; [reflexivity|].
  apply andb_true_iff in nb. destruct nb as [nbl nb].
  apply negb_true_iff in nbl.
  rewrite (loop_body_open devices cur l nbl opened).
  destruct (Grammar.add_property cur l) as [cur1|e] eqn:step; cbn [bind];
    [|reflexivity].
  apply IH; [|exact nb]. exact (add_property_truthy cur cur1 l opened step).
Qed.

End LineFacts.

(** X5.  A line that matches neither pattern, a blank line for one, is
    ignored wherever it stands: the parse with the line is the parse
    without it. *)
Theorem unmatched_line_ignored :
  forall (pre post : list string) (line : string),
    Pred.unmatched line = true ->
    EFSMI.parse_lines (pre ++ line :: post)%list
    = EFSMI.parse_lines (pre ++ post)%list.
Proof.
  intros pre post line un. unfold EFSMI.parse_lines.
  rewrite !loop_app. cbn [EFSMI.loop].
  destruct (EFSMI.loop ([], []) pre) as [st|e]; cbn [bind]; [|reflexivity].
  now rewrite (loop_body_unmatched st line un).
Qed.

Lemma unmatched_line_ignored_witness :
  EFSMI.parse_lines (["DEV ID 0"; "  Dev Name : GCU0"] ++ "" :: ["  Dev UUID : abc"])%list
  = EFSMI.parse_lines (["DEV ID 0"; "  Dev Name : GCU0"] ++ ["  Dev UUID : abc"])%list.
Proof.
  apply (unmatched_line_ignored ["DEV ID 0"; "  Dev Name : GCU0"]
           ["  Dev UUID : abc"] "").
  reflexivity.
Defined.

(** X6.  Inside a device block, a property line with the key "GCU Temp"
    or "GCU Usage" whose value starts with a token that [float] converts
    to [x] is stored as the float [x]; what follows the token, a unit for
    one, is dropped. *)
Theorem float_field_stored_as_float :
  forall (devices : device_map) (cur : fields) (line key text tok : string)
         (toks : list string) (x : pyfloat),
    Dict.truthy cur = true ->
    Grammar.is_boundary line = false ->
    Grammar.property_of line = Some (key, text) ->
    Grammar.is_float_key key = true ->
    Str.split text = tok :: toks ->
    Conv.py_float tok = Ok x ->
    EFSMI.loop_body (devices, cur) line
    = Ok (devices, Dict.set String.eqb cur key (VFloat x)).
Proof.
  intros devices cur line key text tok toks x opened nb prop kind tokens conv.
  rewrite (loop_body_open devices cur line nb opened).
  unfold Grammar.add_property. rewrite prop.
  now rewrite (coerce_float key text tok toks x kind tokens conv).
Qed.

Lemma float_field_stored_as_float_witness :
  EFSMI.loop_body ([], [("DEV_ID", VInt 0)]) "    GCU Usage : 12.5 %"
  = Ok ([], Dict.set String.eqb [("DEV_ID", VInt 0)] "GCU_Usage"
              (VFloat (FNum (25 # 2)))).
Proof.
  apply (float_field_stored_as_float [] [("DEV_ID", VInt 0)]
           "    GCU Usage : 12.5 %" "GCU_Usage" "12.5 %" "12.5" ["%"]);
    vm_compute; reflexivity.
Defined.

(** X7.  Inside a device block, a property line whose key neither ends
    with "_Size" nor is "GCU_Temp" or "GCU_Usage" is stored as the text
    of its value, also when that text is a number. *)
Theorem other_field_stored_as_text :
  forall (devices : device_map) (cur : fields) (line key text : string),
    Dict.truthy cur = true ->
    Grammar.is_boundary line = false ->
    Grammar.property_of line = Some (key, text) ->
    Grammar.is_size_key key = false ->
    Grammar.is_float_key key = false ->
    EFSMI.loop_body (devices, cur) line
    = Ok (devices, Dict.set String.eqb cur key (VStr text)).
Proof.
  intros devices cur line key text opened nb prop ns nf.
  rewrite (loop_body_open devices cur line nb opened).
  unfold Grammar.add_property. rewrite prop.
  now rewrite (coerce_plain key text ns nf).
Qed.

Lemma other_field_stored_as_text_witness :
  EFSMI.loop_body ([], [("DEV_ID", VInt 0)]) "  Dev Slot : 12"
  = Ok ([], Dict.set String.eqb [("DEV_ID", VInt 0)] "Dev_Slot" (VStr "12")).
Proof.
  apply (other_field_stored_as_text [] [("DEV_ID", VInt 0)]
           "  Dev Slot : 12" "Dev_Slot" "12");
    vm_compute; reflexivity.
Defined.

Section LastValueFacts.

Variable key : string.

Lemma fold_step_default (props : list string) (acc : option value) :
  List.fold_left (Pred.latest key) props acc
  = match List.fold_left (Pred.latest key) props None with
    | Some v => Some v
    | None => acc
    end.
Proof.
  revert acc. induction props as [|l props IH]; intros acc; cbn [fold_left].
  - reflexivity.
  - rewrite (IH (Pred.latest key acc l)), (IH (Pred.latest key None l)).
    destruct (fold_left (Pred.latest key) props None); [reflexivity|].
    unfold Pred.latest. destruct (Grammar.property_of l) as [[k text]|]; [|reflexivity].
    destruct (String.eqb k key); [|reflexivity].
    now destruct (EFSMI.coerce k text).
Qed.

Lemma add_property_get (cur cur' : fields) (l : string) :
  Grammar.add_property cur l = Ok cur' ->
  Dict.get String.eqb cur' key = Pred.latest key (Dict.get String.eqb cur key) l.
Proof.
  unfold Grammar.add_property, Pred.latest.
  destruct (Grammar.property_of l) as [[k text]|]; [|now intros [= <-]].
  destruct (EFSMI.coerce k text) as [v|]; cbn [bind]; [|discriminate].
  intros [= <-]. destruct (String.eqb_spec k key) as [->|ne].
  - apply (get_set_same String.eqb String.eqb_spec).
  - now apply (get_set_other String.eqb String.eqb_spec).
Qed.

Lemma add_properties_get (props : list string) :
  forall cur cur',
    Grammar.add_properties cur props = Ok cur' ->
    Dict.get String.eqb cur' key
    = List.fold_left (Pred.latest key) props (Dict.get String.eqb cur key).
Proof.
  induction props as [|l props IH]; intros cur cur';
    cbn [Grammar.add_properties fold_left].
  - now intros [= <-].
  - intros H. apply bind_ok in H. destruct H as (cur1 & first & rest).
    rewrite (IH cur1 cur' rest). now rewrite (add_property_get cur cur1 l first).
Qed.

End LastValueFacts.

(** X8.  While the lines of one block are read the output map is not
    touched, and in the accumulator each key holds the value of the last
    line that sets it; a key no line sets keeps what it held. *)
Theorem last_line_of_a_key_wins :
  forall (props : list string) (devices devices' : device_map)
         (cur cur' : fields),
    Dict.truthy cur = true ->
    forallb (fun l => negb (Grammar.is_boundary l)) props = true ->
    EFSMI.loop (devices, cur) props = Ok (devices', cur') ->
    devices' = devices
    /\ forall key : string,
         Dict.get String.eqb cur' key
         = match Pred.last_value key props with
           | Some v => Some v
           | None => Dict.get String.eqb cur key
           end.
Proof.
  intros props devices devices' cur cur' opened nb run.
  rewrite (loop_within_block props devices cur opened nb) in run.
  apply bind_ok in run. destruct run as (f & acc & [= <- <-]).
  split; [reflexivity|]. intros key.
  rewrite (add_properties_get key props cur f acc).
  apply fold_step_default.
Qed.

Lemma last_line_of_a_key_wins_witness :
  [] = ([] : device_map)
  /\ forall key : string,
       Dict.get String.eqb
         [("DEV_ID", VInt 0); ("GCU_Temp", VFloat (FNum 50)); ("Dev_Name", VStr "GCU0")]
         key
       = match Pred.last_value key
                 ["GCU Temp : 45 C"; "Dev Name : GCU0"; "GCU Temp : 50 C"] with
         | Some v => Some v
         | None => Dict.get String.eqb [("DEV_ID", VInt 0)] key
         end.
Proof.
  apply (last_line_of_a_key_wins
           ["GCU Temp : 45 C"; "Dev Name : GCU0"; "GCU Temp : 50 C"]
           [] [] [("DEV_ID", VInt 0)]);
    vm_compute; reflexivity.
Defined.

(** ** When and how the parse of a category fails *)

Section FailureFacts.

Lemma flush_ok (devices : device_map) (cur : fields) (k : value) :
  Dict.get String.eqb cur "DEV_ID" = Some k ->
  EFSMI.flush devices cur = Ok (Dict.set value_eqb devices k cur).
Proof.
  intros held. unfold EFSMI.flush, getitem.
  now rewrite (get_truthy cur _ _ held), held.
Qed.

Lemma add_property_id (cur cur' : fields) (l : string) :
  (exists k, Dict.get String.eqb cur "DEV_ID" = Some k) ->
  Grammar.add_property cur l = Ok cur' ->
  exists k, Dict.get String.eqb cur' "DEV_ID" = Some k.
Proof.
  intros [k held]. unfold Grammar.add_property.
  destruct (Grammar.property_of l) as [[key text]|];
    [| intros [= <-]; now exists k].
  destruct (EFSMI.coerce key text) as [v|]; cbn [bind]; [|discriminate].
  intros [= <-]. destruct (String.eqb_spec key "DEV_ID") as [->|ne].
  - exists v. apply (get_set_same String.eqb String.eqb_spec).
  - exists k. now rewrite (get_set_other String.eqb String.eqb_spec).
Qed.

Lemma finish_open_error (lines : list string) :
  forall (devices : device_map) (cur : fields),
    (exists k, Dict.get String.eqb cur "DEV_ID" = Some k) ->
    Pred.error_of (st <- EFSMI.loop (devices, cur) lines ;;
                   EFSMI.flush (fst st) (snd st))
    = Pred.error_of (f <- Grammar.add_properties cur
                            (Grammar.until_boundary lines) ;;
                     Grammar.blocks lines).
Proof.
  induction lines as [|l lines IH]; intros devices cur [k held].
  - cbn [EFSMI.loop bind fst snd Grammar.until_boundary Grammar.add_properties].
    now rewrite (flush_ok devices cur k held).
  - unfold Grammar.blocks in *.
    cbn [EFSMI.loop Grammar.until_boundary Grammar.segments].
    unfold Grammar.is_boundary.
    destruct (Grammar.boundary_id l) as [digits|] eqn:b.
    + rewrite (loop_body_boundary devices cur l digits b).
      rewrite (flush_ok devices cur k held).
      cbn [bind Grammar.add_properties Grammar.blocks_of].
      unfold Grammar.block. cbn [fst snd].
      destruct (Conv.py_int digits) as [n|e]; cbn [bind]; [|reflexivity].
      rewrite (IH _ [("DEV_ID", VInt n)]) by (now eexists).
      destruct (Grammar.add_properties _ _); cbn [bind]; [|reflexivity].
      now destruct (Grammar.blocks_of _).
    + assert (nb : Grammar.is_boundary l = false)
        by (unfold Grammar.is_boundary; now rewrite b).
      rewrite (loop_body_open devices cur l nb (get_truthy cur _ _ held)).
      cbn [Grammar.add_properties].
      destruct (Grammar.add_property cur l) as [cur1|e] eqn:step; cbn [bind];
        [|reflexivity].
      apply IH. exact (add_property_id cur cur1 l (ex_intro _ k held) step).
Qed.

Lemma finish_closed_error (lines : list string) :
  forall devices : device_map,
    Pred.error_of (st <- EFSMI.loop (devices, []) lines ;;
                   EFSMI.flush (fst st) (snd st))
    = Pred.error_of (Grammar.blocks lines).
Proof.
  induction lines as [|l lines IH]; intros devices; [reflexivity|].
  unfold Grammar.blocks in *. cbn [EFSMI.loop Grammar.segments].
  destruct (Grammar.boundary_id l) as [digits|] eqn:b.
  - pose proof (loop_body_boundary devices [] l digits b) as E.
    unfold EFSMI.state, device_map, fields in *. rewrite E.
    cbn [EFSMI.flush Dict.truthy bind Grammar.blocks_of].
    unfold Grammar.block. cbn [fst snd].
    destruct (Conv.py_int digits) as [n|e]; cbn [bind]; [|reflexivity].
    pose proof (finish_open_error lines devices [("DEV_ID", VInt n)]) as H.
    unfold Grammar.blocks, EFSMI.state, device_map, fields in H.
    rewrite H by (now eexists).
    destruct (Grammar.add_properties _ _); cbn [bind]; [|reflexivity].
    now destruct (Grammar.blocks_of _).
  - assert (nb : Grammar.is_boundary l = false)
      by (unfold Grammar.is_boundary; now rewrite b).
    pose proof (loop_body_closed devices l nb) as E.
    unfold EFSMI.state, device_map, fields in *. rewrite E. cbn [bind].
    apply IH.
Qed.

Lemma parse_lines_error (lines : list string) :
  Pred.error_of (EFSMI.parse_lines lines) = Pred.error_of (Grammar.blocks lines).
Proof. exact (finish_closed_error lines []). Qed.

Lemma py_int_error (s : string) (e : exn) :
  Conv.py_int s = Raise e -> e = ValueError s.
Proof.
  unfold Conv.py_int. destruct (Conv.split_sign _) as [negative body].
  destruct (Conv.int_digits _ _ _ _) as [[n count]|]; [|now intros [= <-]].
  destruct (_ <? _)%nat; [now intros [= <-] | discriminate].
Qed.

Lemma py_float_error (s : string) (e : exn) :
  Conv.py_float s = Raise e -> e = ValueError s.
Proof.
  unfold Conv.py_float.
  destruct (negb _); [now intros [= <-]|].
  destruct (Conv.split_sign _) as [negative body].
  destruct (_ || _); [discriminate|].
  destruct (String.eqb _ _); [discriminate|].
  destruct (Conv.take_digits 0 0 body) as [[i ni] rest].
  destruct (match rest with String "." r => _ | _ => _ end) as [[m nf] rest'].
  destruct (ni + nf)%nat; [now intros [= <-]|].
  destruct (Conv.exponent rest'); [discriminate | now intros [= <-]].
Qed.

Lemma first_token_error (text : string) (e : exn) :
  EFSMI.first_token (VStr text) = Raise e -> e = IndexError.
Proof.
  cbn [EFSMI.first_token]. destruct (Str.split text); [|discriminate].
  now intros [= <-].
Qed.

Lemma coerce_error (key text : string) (e : exn) :
  EFSMI.coerce key text = Raise e -> Pred.conversion_error e.
Proof.
  unfold EFSMI.coerce.
  destruct (Str.endswith "_Size" key) eqn:size.
  - destruct (size_key_not_float key size) as [nt nu]. rewrite nt, nu.
    destruct (EFSMI.first_token (VStr text)) as [tok|e0] eqn:T; cbn [bind].
    + destruct (Conv.py_int tok) as [n|e0] eqn:C; cbn [bind]; [discriminate|].
      intros [= <-]. right. exists tok. now apply py_int_error.
    + intros [= <-]. left. now apply first_token_error in T.
  - cbn [bind]. destruct (String.eqb_spec key "GCU_Temp") as [->|nt].
    + cbn [String.eqb Ascii.eqb Bool.eqb].
      destruct (EFSMI.first_token (VStr text)) as [tok|e0] eqn:T; cbn [bind].
      * destruct (Conv.py_float tok) as [x|e0] eqn:C; cbn [bind]; [discriminate|].
        intros [= <-]. right. exists tok. now apply py_float_error.
      * intros [= <-]. left. now apply first_token_error in T.
    + cbn [bind]. destruct (String.eqb key "GCU_Usage"); [|discriminate].
      destruct (EFSMI.first_token (VStr text)) as [tok|e0] eqn:T; cbn [bind].
      * destruct (Conv.py_float tok) as [x|e0] eqn:C; cbn [bind]; [discriminate|].
        intros [= <-]. right. exists tok. now apply py_float_error.
      * intros [= <-]. left. now apply first_token_error in T.
Qed.

Lemma add_properties_error (props : list string) :
  forall (cur : fields) (e : exn),
    Grammar.add_properties cur props = Raise e -> Pred.conversion_error e.
Proof.
  induction props as [|l props IH]; intros cur e; cbn [Grammar.add_properties];
    [discriminate|].
  unfold Grammar.add_property at 1.
  destruct (Grammar.property_of l) as [[key text]|]; cbn [bind].
  - destruct (EFSMI.coerce key text) as [v|e0] eqn:C; cbn [bind].
    + apply IH.
    + intros [= <-]. now apply coerce_error in C.
  - apply IH.
Qed.

Lemma blocks_of_error (segs : list (string * list string)) (e : exn) :
  Grammar.blocks_of segs = Raise e -> Pred.conversion_error e.
Proof.
  induction segs as [|[digits props] segs IH]; cbn [Grammar.blocks_of];
    [discriminate|].
  unfold Grammar.block. cbn [fst snd].
  destruct (Conv.py_int digits) as [n|e0] eqn:C; cbn [bind].
  - destruct (Grammar.add_properties _ props) as [f|e0] eqn:P; cbn [bind].
    + destruct (Grammar.blocks_of segs); cbn [bind]; [discriminate|].
      intros [= <-]. now apply IH.
    + intros [= <-]. now apply add_properties_error in P.
  - intros [= <-]. right. exists digits. now apply py_int_error.
Qed.

End FailureFacts.

(** X9.  The parse of a text fails exactly when reading its blocks one
    by one fails, and with the same error: the first declared id or
    numeric field, in the order of the text, that does not convert.
    Nothing else makes the parse fail. *)
Theorem parse_fails_as_blocks_fail :
  forall (output : string) (e : exn),
    EFSMI.parse_output output = Raise e
    <-> Grammar.blocks (Str.splitlines output) = Raise e.
Proof.
  intros output e. unfold EFSMI.parse_output.
  pose proof (parse_lines_error (Str.splitlines output)) as H.
  destruct (EFSMI.parse_lines (Str.splitlines output)) as [m|e1];
    destruct (Grammar.blocks (Str.splitlines output)) as [bs|e2];
    cbn [Pred.error_of] in H; try discriminate H.
  - split; discriminate.
  - injection H as ->. split; intros [= ->]; reflexivity.
Qed.

(** X10.  The only errors the parse of a text raises are [IndexError],
    for a numeric field with an empty value, and [ValueError], for a
    token or an id that does not convert; it raises no [KeyError]. *)
Theorem parse_raises_conversion_errors_only :
  forall (output : string) (e : exn),
    EFSMI.parse_output output = Raise e ->
    e = IndexError \/ exists literal, e = ValueError literal.
Proof.
  intros output e failed. unfold EFSMI.parse_output in failed.
  pose proof (parse_lines_error (Str.splitlines output)) as H.
  rewrite failed in H. cbn [Pred.error_of] in H.
  destruct (Grammar.blocks (Str.splitlines output)) as [bs|e2] eqn:B;
    cbn [Pred.error_of] in H; [discriminate H|].
  injection H as <-. exact (blocks_of_error _ e B).
Qed.

Lemma parse_raises_conversion_errors_only_witness :
  ValueError "N/A" = IndexError
  \/ exists literal, ValueError "N/A" = ValueError literal.
Proof.
  apply (parse_raises_conversion_errors_only
           (Grammar.unlines ["DEV ID 0"; "GCU Temp : N/A"])).
  vm_compute. reflexivity.
Defined.

(** ** What every map the parse returns satisfies *)

Section MapFacts.

Lemma value_eqb_id (a b : value) :
  Pred.is_id a = true -> Pred.is_id b = true -> value_eqb a b = true -> a = b.
Proof.
  destruct a, b; simpl; try discriminate; intros _ _ H.
  - now apply Z.eqb_eq in H; subst.
  - now apply String.eqb_eq in H; subst.
Qed.

(** The entries of a map after an assignment. *)
Lemma in_set_inv {K V : Type} (eqb : K -> K -> bool)
    (d : list (K * V)) (k : K) (v : V) (x : K) (w : V) :
  In (x, w) (Dict.set eqb d k v) ->
  In (x, w) d
  \/ (w = v /\ (x = k \/ (eqb x k = true /\ exists w0, In (x, w0) d))).
Proof.
  induction d as [|[k0 v0] d IH]; cbn [Dict.set].
  - intros [[= <- <-]|[]]. right. split; [reflexivity | now left].
  - destruct (eqb k0 k) eqn:E.
    + intros [[= <- <-]|H].
      * right. split; [reflexivity|]. right. split; [exact E|].
        exists v0. now left.
      * left. now right.
    + intros [H|H]; [left; now left|].
      destruct (IH H) as [H'|(-> & [->|(E' & w0 & H')])].
      * left. now right.
      * right. split; [reflexivity | now left].
      * right. split; [reflexivity|]. right. split; [exact E'|].
        exists w0. now right.
Qed.

Lemma set_not_nil {K V : Type} (eqb : K -> K -> bool)
    (d : list (K * V)) (k : K) (v : V) :
  Dict.set eqb d k v <> [].
Proof.
  destruct d as [|[k0 v0] d]; cbn [Dict.set]; [discriminate|].
  now destruct (eqb k0 k).
Qed.

Lemma filed_set (devices : device_map) (cur : fields) (k : value) :
  Pred.filed_by_id devices ->
  Dict.get String.eqb cur "DEV_ID" = Some k ->
  Pred.is_id k = true ->
  Pred.filed_by_id (Dict.set value_eqb devices k cur).
Proof.
  intros filed held id x f H.
  destruct (in_set_inv value_eqb devices k cur x f H)
    as [old|(-> & [->|(same & f0 & old)])].
  - now apply filed.
  - now split.
  - destruct (filed x f0 old) as [_ idx].
    rewrite (value_eqb_id x k idx id same). now split.
Qed.

Lemma flush_filed (devices devices' : device_map) (cur : fields) :
  Pred.filed_by_id devices ->
  Pred.holds_id cur ->
  EFSMI.flush devices cur = Ok devices' ->
  Pred.filed_by_id devices'.
Proof.
  intros filed [->|(k & held & id)].
  - now intros [= <-].
  - rewrite (flush_ok devices cur k held). intros [= <-].
    now apply filed_set.
Qed.

Lemma coerce_reserved (text : string) :
  EFSMI.coerce "DEV_ID" text = Ok (VStr text).
Proof. now apply coerce_plain. Qed.

Lemma add_property_holds_id (cur cur' : fields) (l : string) :
  Dict.truthy cur = true ->
  Pred.holds_id cur ->
  Grammar.add_property cur l = Ok cur' ->
  Pred.holds_id cur'.
Proof.
  intros opened [->|(k & held & id)]; [discriminate opened|].
  unfold Grammar.add_property.
  destruct (Grammar.property_of l) as [[key text]|];
    [| intros [= <-]; right; now exists k].
  destruct (String.eqb_spec key "DEV_ID") as [->|ne].
  - rewrite coerce_reserved. cbn [bind]. intros [= <-]. right.
    exists (VStr text). split; [|reflexivity].
    apply (get_set_same String.eqb String.eqb_spec).
  - destruct (EFSMI.coerce key text) as [v|]; cbn [bind]; [|discriminate].
    intros [= <-]. right. exists k. split; [|exact id].
    now rewrite (get_set_other String.eqb String.eqb_spec).
Qed.

Lemma loop_body_filed (st st' : EFSMI.state) (line : string) :
  EFSMI.loop_body st line = Ok st' ->
  Pred.filed_by_id (fst st) /\ Pred.holds_id (snd st) ->
  Pred.filed_by_id (fst st') /\ Pred.holds_id (snd st').
Proof.
  destruct st as [devices cur]. cbn [fst snd]. intros step [filed held].
  destruct (Grammar.boundary_id line) as [digits|] eqn:b.
  - rewrite (loop_body_boundary devices cur line digits b) in step.
    destruct (EFSMI.flush devices cur) as [devices1|] eqn:F;
      cbn [bind] in step; [|discriminate].
    destruct (Conv.py_int digits) as [n|]; cbn [bind] in step; [|discriminate].
    injection step as <-. cbn [fst snd]. split.
    + exact (flush_filed devices devices1 cur filed held F).
    + right. exists (VInt n). now split.
  - assert (nb : Grammar.is_boundary line = false)
      by (unfold Grammar.is_boundary; now rewrite b).
    destruct (Dict.truthy cur) eqn:opened.
    + rewrite (loop_body_open devices cur line nb opened) in step.
      destruct (Grammar.add_property cur line) as [cur1|] eqn:P;
        cbn [bind] in step; [|discriminate].
      injection step as <-. cbn [fst snd]. split; [exact filed|].
      exact (add_property_holds_id cur cur1 line opened held P).
    + destruct cur; [|discriminate opened].
      pose proof (eq_trans (eq_sym (loop_body_closed devices line nb)) step) as E.
      injection E as <-. cbn [fst snd]. split; [exact filed | now left].
Qed.

Lemma loop_filed (lines : list string) :
  forall st st',
    EFSMI.loop st lines = Ok st' ->
    Pred.filed_by_id (fst st) /\ Pred.holds_id (snd st) ->
    Pred.filed_by_id (fst st') /\ Pred.holds_id (snd st').
Proof.
  induction lines as [|l lines IH]; intros st st'; cbn [EFSMI.loop].
  - now intros [= <-].
  - destruct (EFSMI.loop_body st l) as [st1|] eqn:step; cbn [bind]; [|discriminate].
    intros run inv. apply (IH st1 st' run).
    exact (loop_body_filed st st1 l step inv).
Qed.

Lemma parse_lines_filed (lines : list string) (m : device_map) :
  EFSMI.parse_lines lines = Ok m -> Pred.filed_by_id m.
Proof.
  unfold EFSMI.parse_lines. intros H. apply bind_ok in H.
  destruct H as ([devices cur] & run & F). cbn [fst snd] in F.
  destruct (loop_filed lines ([], []) (devices, cur) run) as [filed held].
  - split; [intros k f [] | now left].
  - exact (flush_filed devices m cur filed held F).
Qed.

End MapFacts.

(** X11.  In every map the parse returns, each entry is filed under the
    id that its own fields hold under "DEV_ID", and that id is an integer
    or a text, never a float. *)
Theorem entries_filed_under_own_id :
  forall (output : string) (m : device_map),
    EFSMI.parse_output output = Ok m ->
    Forall (fun entry : value * fields =>
              Dict.get String.eqb (snd entry) "DEV_ID" = Some (fst entry)
              /\ Pred.is_id (fst entry) = true) m.
Proof.
  intros output m parsed. apply Forall_forall. intros [k f] H.
  exact (parse_lines_filed _ m parsed k f H).
Qed.

Lemma entries_filed_under_own_id_witness :
  Forall (fun entry : value * fields =>
            Dict.get String.eqb (snd entry) "DEV_ID" = Some (fst entry)
            /\ Pred.is_id (fst entry) = true)
    [(VInt 3, [("DEV_ID", VInt 3); ("Dev_Name", VStr "GCU3")]);
     (VStr "x", [("DEV_ID", VStr "x")])].
Proof.
  apply (entries_filed_under_own_id
           (Grammar.unlines ["DEV ID 3"; "Dev Name : GCU3"; "DEV ID 4";
                             "DEV ID : x"])).
  vm_compute. reflexivity.
Defined.

(** X12.  A map the parse returns is empty exactly when the text has no
    device-boundary line. *)
Theorem empty_map_iff_no_boundary :
  forall (output : string) (m : device_map),
    EFSMI.parse_output output = Ok m ->
    (m = [] <-> forallb (fun l => negb (Grammar.is_boundary l))
                  (Str.splitlines output) = true).
Proof.
  intros output m. unfold EFSMI.parse_output, EFSMI.parse_lines.
  set (lines := Str.splitlines output). intros parsed. split.
  - intros ->.
    destruct (forallb (fun l => negb (Grammar.is_boundary l)) lines) eqn:none;
      [reflexivity | exfalso].
    assert (some : existsb Grammar.is_boundary lines = true).
    { clear parsed. induction lines as [|l lines IH]; [discriminate none|].
      cbn [forallb existsb] in *.
      destruct (Grammar.is_boundary l); [reflexivity | now apply IH]. }
    apply bind_ok in parsed. destruct parsed as ([devices cur] & run & F).
    pose proof (loop_truthy lines _ _ run (or_intror some)) as opened.
    cbn [fst snd] in F, opened. unfold EFSMI.flush in F. rewrite opened in F.
    apply bind_ok in F. destruct F as (k & _ & [= F]).
    exact (set_not_nil value_eqb devices k cur F).
  - intros none.
    pose proof (loop_before_first_boundary [] lines none) as E.
    unfold EFSMI.state, device_map, fields in *. rewrite E in parsed.
    now injection parsed as <-.
Qed.

Lemma empty_map_iff_no_boundary_witness :
  ([] : device_map) = []
  <-> forallb (fun l => negb (Grammar.is_boundary l))
        (Str.splitlines (Grammar.unlines ["-- report --"; "Driver : 1.2"])) = true.
Proof.
  apply (empty_map_iff_no_boundary
           (Grammar.unlines ["-- report --"; "Driver : 1.2"])).
  vm_compute. reflexivity.
Defined.

Section NameFacts.

Lemma no_blank_replace (s : string) :
  Pred.no_blank (Str.replace_space_underscore s) = true.
Proof.
  unfold Pred.no_blank, Str.replace_space_underscore.
  induction s as [|c s IH]; cbn [Str.map Str.forallb]; [reflexivity|].
  rewrite IH, andb_true_r.
  destruct (Ascii.eqb c " ") eqn:E; [reflexivity | now rewrite E].
Qed.

Lemma property_key_no_blank (l key text : string) :
  Grammar.property_of l = Some (key, text) -> Pred.no_blank key = true.
Proof.
  unfold Grammar.property_of.
  destruct (Re.re_match EFSMI.property_pattern l); [|discriminate].
  intros [= <- _]. apply no_blank_replace.
Qed.

Lemma add_property_names (cur cur' : fields) (l : string) :
  Pred.names_without_blank cur ->
  Grammar.add_property cur l = Ok cur' ->
  Pred.names_without_blank cur'.
Proof.
  intros names. unfold Grammar.add_property.
  destruct (Grammar.property_of l) as [[key text]|] eqn:prop;
    [| now intros [= <-]].
  destruct (EFSMI.coerce key text) as [v|]; cbn [bind]; [|discriminate].
  intros [= <-] name w H.
  destruct (in_set_inv String.eqb cur key v name w H)
    as [old|(_ & [->|(_ & w0 & old)])].
  - exact (names name w old).
  - exact (property_key_no_blank l key text prop).
  - exact (names name w0 old).
Qed.

Lemma loop_body_names (st st' : EFSMI.state) (line : string) :
  EFSMI.loop_body st line = Ok st' ->
  (forall k f, In (k, f) (fst st) -> Pred.names_without_blank f)
  /\ Pred.names_without_blank (snd st) ->
  (forall k f, In (k, f) (fst st') -> Pred.names_without_blank f)
  /\ Pred.names_without_blank (snd st').
Proof.
  destruct st as [devices cur]. cbn [fst snd]. intros step [entries names].
  destruct (Grammar.boundary_id line) as [digits|] eqn:b.
  - rewrite (loop_body_boundary devices cur line digits b) in step.
    unfold EFSMI.flush in step.
    destruct (Dict.truthy cur).
    + destruct (getitem cur "DEV_ID") as [k|]; cbn [bind] in step; [|discriminate].
      destruct (Conv.py_int digits) as [n|]; cbn [bind] in step; [|discriminate].
      injection step as <-. cbn [fst snd]. split.
      * intros x f H.
        destruct (in_set_inv value_eqb devices k cur x f H) as [old|[-> _]];
          [exact (entries x f old) | exact names].
      * intros name w [[= <- <-]|[]]. reflexivity.
    + cbn [bind] in step.
      destruct (Conv.py_int digits) as [n|]; cbn [bind] in step; [|discriminate].
      injection step as <-. cbn [fst snd]. split; [exact entries|].
      intros name w [[= <- <-]|[]]. reflexivity.
  - assert (nb : Grammar.is_boundary line = false)
      by (unfold Grammar.is_boundary; now rewrite b).
    destruct (Dict.truthy cur) eqn:opened.
    + rewrite (loop_body_open devices cur line nb opened) in step.
      destruct (Grammar.add_property cur line) as [cur1|] eqn:P;
        cbn [bind] in step; [|discriminate].
      injection step as <-. cbn [fst snd]. split; [exact entries|].
      exact (add_property_names cur cur1 line names P).
    + destruct cur; [|discriminate opened].
      pose proof (eq_trans (eq_sym (loop_body_closed devices line nb)) step) as E.
      injection E as <-. cbn [fst snd]. now split.
Qed.

Lemma loop_names (lines : list string) :
  forall st st',
    EFSMI.loop st lines = Ok st' ->
    (forall k f, In (k, f) (fst st) -> Pred.names_without_blank f)
    /\ Pred.names_without_blank (snd st) ->
    (forall k f, In (k, f) (fst st') -> Pred.names_without_blank f)
    /\ Pred.names_without_blank (snd st').
Proof.
  induction lines as [|l lines IH]; intros st st'; cbn [EFSMI.loop].
  - now intros [= <-].
  - destruct (EFSMI.loop_body st l) as [st1|] eqn:step; cbn [bind]; [|discriminate].
    intros run inv. apply (IH st1 st' run).
    exact (loop_body_names st st1 l step inv).
Qed.

End NameFacts.

(** X13.  In every map the parse returns, no field name has a blank:
    each blank of a key has become an underscore. *)
Theorem field_names_have_no_blank :
  forall (output : string) (m : device_map),
    EFSMI.parse_output output = Ok m ->
    Forall (fun entry : value * fields =>
              Forall (fun field : string * value =>
                        Pred.no_blank (fst field) = true) (snd entry)) m.
Proof.
  intros output m. unfold EFSMI.parse_output, EFSMI.parse_lines.
  intros parsed. apply bind_ok in parsed.
  destruct parsed as ([devices cur] & run & F).
  destruct (loop_names _ ([], []) (devices, cur) run) as [entries names].
  { split; [intros k f [] | intros name v []]. }
  cbn [fst snd] in *. unfold EFSMI.flush in F.
  apply Forall_forall. intros [k f] H.
  apply Forall_forall. intros [name v] Hf. cbn [fst snd] in *.
  destruct (Dict.truthy cur).
  - apply bind_ok in F. destruct F as (k0 & _ & [= <-]).
    destruct (in_set_inv value_eqb devices k0 cur k f H) as [old|[-> _]].
    + exact (entries k f old name v Hf).
    + exact (names name v Hf).
  - injection F as <-. exact (entries k f H name v Hf).
Qed.

Lemma field_names_have_no_blank_witness :
  Forall (fun entry : value * fields =>
            Forall (fun field : string * value =>
                      Pred.no_blank (fst field) = true) (snd entry))
    [(VInt 0, [("DEV_ID", VInt 0); ("Dev_Chip_Name", VStr "T20")])].
Proof.
  apply (field_names_have_no_blank
           (Grammar.unlines ["DEV ID 0"; "  Dev Chip Name : T20"])).
  vm_compute. reflexivity.
Defined.

(** ** The join, record by record *)

Section RecordFacts.

Variables memory_info temperature_info usage_info : device_map.

Ltac lookups :=
  repeat match goal with
  | |- bind (match ?g with _ => _ end) _ = _ -> _ =>
      let E := fresh "E" in
      destruct g eqn:E; cbn [bind]; [|discriminate]
  end.

Lemma make_device_joined (k : value) (item : fields) (dev : EFSMI.GPUDeviceInfo.t) :
  EFSMI.make_device memory_info temperature_info usage_info k item = Ok dev ->
  Pred.joined memory_info temperature_info usage_info dev (k, item)
  /\ Pred.uniform dev.
Proof.
  unfold EFSMI.make_device, getitem, getdevice. lookups.
  intros [= <-]. unfold Pred.joined, Pred.uniform. cbn.
  repeat split; eauto.
Qed.


Lemma assemble_spec (items : device_map) :
  forall (acc devs : list EFSMI.GPUDeviceInfo.t),
    EFSMI.assemble memory_info temperature_info usage_info items acc = Ok devs ->
    exists new,
      devs = (acc ++ new)%list
      /\ Forall2 (Pred.joined memory_info temperature_info usage_info) new items
      /\ Forall Pred.uniform new.
Proof.
  induction items as [|[k item] items IH]; intros acc devs; cbn [EFSMI.assemble].
  - intros [= <-]. exists []. rewrite app_nil_r. repeat constructor.
  - destruct (EFSMI.make_device _ _ _ k item) as [dev|] eqn:M; cbn [bind];
      [|discriminate].
    intros H. destruct (IH _ _ H) as (new & -> & joined & uniform).
    destruct (make_device_joined k item dev M) as [J U].
    exists (dev :: new). rewrite <- app_assoc. cbn [app].
    split; [reflexivity|]. split; constructor; assumption.
Qed.


End RecordFacts.

Section GatherFacts.

Variable run : subprocess_run.

Lemma gather_of_maps (d m t u : device_map) :
  EFSMI._get_gpu_info run Join.identity_query = Ok d ->
  EFSMI._get_gpu_info run (Join.query Join.MEMORY) = Ok m ->
  EFSMI._get_gpu_info run (Join.query Join.TEMP) = Ok t ->
  EFSMI._get_gpu_info run (Join.query Join.USAGE) = Ok u ->
  EFSMI._gather_gpu_info run = EFSMI.assemble m t u d [].
Proof.
  intros Hd Hm Ht Hu. unfold EFSMI._gather_gpu_info.
  change ["efsmi"; "-q"; "-d"; "DEVICE"] with Join.identity_query.
  change ["efsmi"; "-q"; "-d"; "MEMORY"] with (Join.query Join.MEMORY).
  change ["efsmi"; "-q"; "-d"; "TEMP"] with (Join.query Join.TEMP).
  change ["efsmi"; "-q"; "-d"; "USAGE"] with (Join.query Join.USAGE).
  now rewrite Hd, Hm, Ht, Hu.
Qed.

Lemma gather_ok_maps (devs : list EFSMI.GPUDeviceInfo.t) :
  EFSMI._gather_gpu_info run = Ok devs ->
  exists d m t u,
    EFSMI._get_gpu_info run Join.identity_query = Ok d
    /\ EFSMI._get_gpu_info run (Join.query Join.MEMORY) = Ok m
    /\ EFSMI._get_gpu_info run (Join.query Join.TEMP) = Ok t
    /\ EFSMI._get_gpu_info run (Join.query Join.USAGE) = Ok u
    /\ EFSMI.assemble m t u d [] = Ok devs.
Proof.
  unfold EFSMI._gather_gpu_info.
  change ["efsmi"; "-q"; "-d"; "DEVICE"] with Join.identity_query.
  change ["efsmi"; "-q"; "-d"; "MEMORY"] with (Join.query Join.MEMORY).
  change ["efsmi"; "-q"; "-d"; "TEMP"] with (Join.query Join.TEMP).
  change ["efsmi"; "-q"; "-d"; "USAGE"] with (Join.query Join.USAGE).
  destruct (EFSMI._get_gpu_info run Join.identity_query) as [d|]; [|discriminate].
  destruct (EFSMI._get_gpu_info run (Join.query Join.MEMORY)) as [m|]; [|discriminate].
  destruct (EFSMI._get_gpu_info run (Join.query Join.TEMP)) as [t|]; [|discriminate].
  destruct (EFSMI._get_gpu_info run (Join.query Join.USAGE)) as [u|]; [|discriminate].
  cbn [bind]. intros H. now exists d, m, t, u.
Qed.

Lemma get_gpu_info_parsed (command : list string) (d : device_map) :
  EFSMI._get_gpu_info run command = Ok d ->
  exists output,
    EFSMI._run_command run command = Ok (Some output)
    /\ EFSMI.parse_output output = Ok d.
Proof.
  unfold EFSMI._get_gpu_info.
  destruct (EFSMI._run_command run command) as [[output|]|]; cbn [bind];
    [|discriminate|discriminate].
  intros H. now exists output.
Qed.

End GatherFacts.



(** X15.  Every record the gather returns has the vendor Enflame and the
    type GPU, is marked as not unified memory, has its three indices
    equal, and reports as memory utilization rate the same value as its
    core utilization rate. *)
Theorem gathered_records_uniform :
  forall (run : subprocess_run) (devs : list EFSMI.GPUDeviceInfo.t),
    EFSMI._gather_gpu_info run = Ok devs ->
    Forall Pred.uniform devs.
Proof.
  intros run devs H.
  destruct (gather_ok_maps run devs H) as (d & m & t & u & _ & _ & _ & _ & A).
  destruct (assemble_spec m t u d [] devs A) as (new & -> & _ & U).
  exact U.
Qed.

Lemma gathered_records_uniform_witness :
  Forall Pred.uniform [Join.healthy_device].
Proof.
  apply (gathered_records_uniform Tool.healthy_run). vm_compute. reflexivity.
Defined.

(** X16.  The records the gather returns stand one for one, in the same
    order, for the entries of the identity map: a record has the id, name
    and uuid of its entry, and the usage, the two memory sizes and the
    temperature found under the id of that entry in the three other
    maps. *)
Theorem gathered_records_follow_identity :
  forall (run : subprocess_run) (d m t u : device_map)
         (devs : list EFSMI.GPUDeviceInfo.t),
    EFSMI._get_gpu_info run Join.identity_query = Ok d ->
    EFSMI._get_gpu_info run (Join.query Join.MEMORY) = Ok m ->
    EFSMI._get_gpu_info run (Join.query Join.TEMP) = Ok t ->
    EFSMI._get_gpu_info run (Join.query Join.USAGE) = Ok u ->
    EFSMI._gather_gpu_info run = Ok devs ->
    Forall2 (Pred.joined m t u) devs d.
Proof.
  intros run d m t u devs Hd Hm Ht Hu H.
  rewrite (gather_of_maps run d m t u Hd Hm Ht Hu) in H.
  destruct (assemble_spec m t u d [] devs H) as (new & -> & J & _).
  exact J.
Qed.

Lemma gathered_records_follow_identity_witness :
  Forall2
    (Pred.joined
       [(VInt 0, [("DEV_ID", VInt 0); ("Total_Size", VInt 34359738368);
                  ("Used_Size", VInt 1073741824)])]
       [(VInt 0, [("DEV_ID", VInt 0); ("GCU_Temp", VFloat (FNum 45))])]
       [(VInt 0, [("DEV_ID", VInt 0); ("GCU_Usage", VFloat (FNum 12))])])
    [Join.healthy_device]
    [(VInt 0, [("DEV_ID", VInt 0); ("Dev_Name", VStr "GCU0");
               ("Dev_UUID", VStr "abc")])].
Proof.
  apply (gathered_records_follow_identity Tool.healthy_run);
    vm_compute; reflexivity.
Defined.

(** X17.  The indices of the records the gather returns are the keys of
    the identity map, in the order of that map: one record for each
    device block of the identity report that the map kept. *)
Theorem gathered_indices_are_identity_keys :
  forall (run : subprocess_run) (d : device_map)
         (devs : list EFSMI.GPUDeviceInfo.t),
    EFSMI._get_gpu_info run Join.identity_query = Ok d ->
    EFSMI._gather_gpu_info run = Ok devs ->
    List.map EFSMI.GPUDeviceInfo.index devs = Dict.keys d
    /\ List.length devs = List.length d.
Proof.
  intros run d devs Hd H.
  destruct (gather_ok_maps run devs H) as (d' & m & t & u & Hd' & _ & _ & _ & A).
  rewrite Hd in Hd'. injection Hd' as <-.
  destruct (get_gpu_info_parsed run _ d Hd) as (output & _ & parsed).
  pose proof (parse_lines_filed _ d parsed) as filed.
  destruct (assemble_spec m t u d [] devs A) as (new & -> & J & _).
  cbn [app]. clear A H Hd parsed.
  induction J as [|dev [k item] new d' (held & _) J IH]; [now split|].
  destruct (filed k item (or_introl eq_refl)) as [own _].
  cbn [fst snd] in held. rewrite held in own. injection own as own.
  destruct IH as [IHk IHl]; [intros x f Hx; apply filed; now right|].
  unfold Dict.keys in *. cbn [List.map fst List.length]. split.
  - now rewrite own, IHk.
  - now rewrite IHl.
Qed.

Lemma gathered_indices_are_identity_keys_witness :
  List.map EFSMI.GPUDeviceInfo.index [Join.healthy_device] = [VInt 0]
  /\ List.length [Join.healthy_device] = 1%nat.
Proof.
  apply (gathered_indices_are_identity_keys Tool.healthy_run
           [(VInt 0, [("DEV_ID", VInt 0); ("Dev_Name", VStr "GCU0");
                      ("Dev_UUID", VStr "abc")])]);
    vm_compute; reflexivity.
Defined.

Section AgreeFacts.

Variables m m' t t' u u' : device_map.


End AgreeFacts.



(** X19.  The gather runs the four queries in the order DEVICE, MEMORY,
    TEMP, USAGE and raises the error of the first one that fails; it joins
    nothing before all four have given their maps. *)
Theorem gather_raises_first_failure :
  forall (run : subprocess_run) (e : exn),
    Pred.first_failure run Pred.all_queries = Some e ->
    EFSMI._gather_gpu_info run = Raise e.
Proof.
  intros run e. unfold EFSMI._gather_gpu_info, Pred.all_queries.
  change ["efsmi"; "-q"; "-d"; "DEVICE"] with Join.identity_query.
  change ["efsmi"; "-q"; "-d"; "MEMORY"] with (Join.query Join.MEMORY).
  change ["efsmi"; "-q"; "-d"; "TEMP"] with (Join.query Join.TEMP).
  change ["efsmi"; "-q"; "-d"; "USAGE"] with (Join.query Join.USAGE).
  cbn [Pred.first_failure].
  destruct (EFSMI._get_gpu_info run Join.identity_query); cbn [bind];
    [| now intros [= ->]].
  destruct (EFSMI._get_gpu_info run (Join.query Join.MEMORY)); cbn [bind];
    [| now intros [= ->]].
  destruct (EFSMI._get_gpu_info run (Join.query Join.TEMP)); cbn [bind];
    [| now intros [= ->]].
  destruct (EFSMI._get_gpu_info run (Join.query Join.USAGE)); cbn [bind];
    [discriminate | now intros [= ->]].
Qed.

Lemma gather_raises_first_failure_witness :
  EFSMI._gather_gpu_info
    (Tool.efsmi (Tool.report 0 Tool.device_text) (Tool.report 0 "no devices")
                (Tool.report 2 "boom") (Tool.report 0 Tool.usage_text))
  = Raise (Exception "Failed to get GPU base info").
Proof.
  apply gather_raises_first_failure. vm_compute. reflexivity.
Defined.



Section OrderFacts.

Lemma existsb_eqb_in (i : Z) (seen : list Z) :
  List.existsb (Z.eqb i) seen = true <-> In i seen.
Proof.
  rewrite existsb_exists. split.
  - intros (x & Hx & E). apply Z.eqb_eq in E. now subst.
  - intros H. exists i. split; [exact H | apply Z.eqb_refl].
Qed.

Lemma first_seen_ext (ids : list Z) :
  forall seen seen',
    (forall x, In x seen <-> In x seen') ->
    Pred.first_seen seen ids = Pred.first_seen seen' ids.
Proof.
  induction ids as [|i ids IH]; intros seen seen' same; cbn [Pred.first_seen];
    [reflexivity|].
  assert (E : List.existsb (Z.eqb i) seen = List.existsb (Z.eqb i) seen').
  { apply eq_true_iff_eq. rewrite !existsb_eqb_in. apply same. }
  rewrite E. destruct (List.existsb (Z.eqb i) seen').
  - now apply IH.
  - f_equal. apply IH. intros x. simpl. rewrite (same x). tauto.
Qed.

Lemma collect_from_order (bs : list (Z * fields)) :
  forall d : list (Z * fields),
    Dict.keys (Grammar.collect_from d bs)
    = (Dict.keys d ++ Pred.first_seen (Dict.keys d) (List.map fst bs))%list.
Proof.
  induction bs as [|[n f] bs IH]; intros d.
  - cbn. now rewrite app_nil_r.
  - change (Grammar.collect_from d ((n, f) :: bs))
      with (Grammar.collect_from (Dict.set Z.eqb d n f) bs).
    rewrite IH. cbn [List.map fst Pred.first_seen].
    destruct (List.existsb (Z.eqb n) (Dict.keys d)) eqn:E.
    + apply existsb_eqb_in in E.
      now rewrite (keys_set_present Z.eqb Z.eqb_spec d n f E).
    + assert (fresh : ~ In n (Dict.keys d)).
      { intros H. apply existsb_eqb_in in H. congruence. }
      rewrite (set_fresh Z.eqb Z.eqb_spec d n f fresh).
      unfold Dict.keys. rewrite map_app, <- app_assoc. cbn [List.map fst app].
      do 2 f_equal. apply first_seen_ext.
      intros x. rewrite in_app_iff. simpl. tauto.
Qed.

End OrderFacts.

(** X21.  For a text whose blocks all convert and in which no property
    line uses the key "DEV_ID", the keys of the map stand in the order in
    which the ids are first declared in the text: declaring an id again
    replaces its entry where it stands. *)
Theorem keys_in_order_of_first_declaration :
  forall (output : string) (bs : list (Z * fields)),
    Grammar.blocks (Str.splitlines output) = Ok bs ->
    Grammar.reserved_key_unused (Str.splitlines output) = true ->
    exists m : device_map,
      EFSMI.parse_output output = Ok m
      /\ Dict.keys m = List.map VInt (Pred.first_seen [] (List.map fst bs)).
Proof.
  intros output bs blk free.
  exists (Grammar.lift (Grammar.collect bs)).
  split; [unfold EFSMI.parse_output; now apply parse_lines_blocks|].
  rewrite keys_lift. unfold Grammar.collect.
  now rewrite collect_from_order.
Qed.

Lemma keys_in_order_of_first_declaration_witness :
  exists m : device_map,
    EFSMI.parse_output
      (Grammar.unlines ["DEV ID 2"; "DEV ID 0"; "DEV ID 2"; "Dev Name : late"])
    = Ok m
    /\ Dict.keys m = List.map VInt (Pred.first_seen [] [2%Z; 0%Z; 2%Z]).
Proof.
  apply (keys_in_order_of_first_declaration
           (Grammar.unlines ["DEV ID 2"; "DEV ID 0"; "DEV ID 2"; "Dev Name : late"])
           [(2%Z, [("DEV_ID", VInt 2)]); (0%Z, [("DEV_ID", VInt 0)]);
            (2%Z, [("DEV_ID", VInt 2); ("Dev_Name", VStr "late")])]);
    vm_compute; reflexivity.
Defined.
